(** * PCT_Tokenizer: the forward pass and weight loading of
      [metro/modeling/model/pct_tokenizer.py]

    A shallow embedding of [PCT_Tokenizer.forward] and
    [PCT_Tokenizer.init_weights].

    - The code is written once, over an interface [Numerics] of the two
      number types a PyTorch program mixes: Python floats (the scalars
      [self.decay], [1e-5], ...) and tensor elements.  Two instances are
      given: [IEEE] (Python floats are binary64, tensor elements binary32,
      both with round-to-nearest-even; this is what the program runs on) and
      [Exact] (both are rationals, no rounding).
    - Tensors are nested lists.  PyTorch raises on operands whose shapes do
      not fit; the list operations below are total and follow PyTorch on
      operands that fit.  The shapes that the lists cannot carry (an empty
      axis hides the width of the next one) are taken from the module's
      configuration, as PyTorch's are.
    - [torch.sum] and [torch.matmul] do not fix a summation order; the model
      adds from left to right, starting from zero.
    - Autograd is not modelled: [detach] and [clone] are the identity on
      values.
    - [MixerLayer] (from [.modules]) and [nn.LayerNorm] are fields of the
      module, functions on tensors about which nothing is assumed; what a
      Mixer block draws for its dropout belongs to the function.  What
      [torch.rand] draws for the joint dropout and what the other ranks
      send to [dist.all_reduce] are arguments of [forward].
    - The buffers [codebook], [ema_cluster_size], [ema_w] are the mutable
      state; [forward] runs in a state-and-exception monad, so that an
      exception leaves the writes made before it in place. *)

From Stdlib Require Import ZArith String Ascii Bool Lia PeanoNat.
From Stdlib Require Import QArith Qcanon Lqa.
From Stdlib Require Import Floats.SpecFloat.
From Stdlib Require Import List.
Import ListNotations.
Open Scope string_scope.
Open Scope list_scope.

Set Implicit Arguments.

(** ** Exceptions and the state-and-exception monad *)

Inductive exn : Type :=
| UnboundLocalError (name : string)
| AssertionError (msg : string)
| RuntimeError (msg : string)
| ProcessGroupError
| ZeroDivisionError
| AttributeError
| TypeError
| KeyError (key : string).

Inductive result (A : Type) : Type :=
| Ok (a : A)
| Raise (e : exn).

Arguments Ok {A} a.
Arguments Raise {A} e.

Module PyM.

(** A computation over the module state [S]: it ends in a value or an
    exception, and in both cases hands back the state it reached. *)
Definition M (S A : Type) : Type := S -> result A * S.

Definition ret {S A} (a : A) : M S A := fun s => (Ok a, s).

Definition bind {S A B} (c : M S A) (k : A -> M S B) : M S B :=
  fun s =>
    match c s with
    | (Ok a, s') => k a s'
    | (Raise e, s') => (Raise e, s')
    end.

Definition raise {S A} (e : exn) : M S A := fun s => (Raise e, s).

Definition get {S} : M S S := fun s => (Ok s, s).

Definition put {S} (s' : S) : M S unit := fun _ => (Ok tt, s').

Definition lift {S A} (r : result A) : M S A := fun s => (r, s).

(** [x] where Python needs a value and [None] makes it raise [e]. *)
Definition need {S A} (o : option A) (e : exn) : M S A :=
  match o with
  | Some a => ret a
  | None => raise e
  end.

End PyM.

Declare Scope pym_scope.
Delimit Scope pym_scope with pym.
Notation "x <- c ;; k" := (PyM.bind c (fun x => k))
  (at level 61, c at next level, right associativity) : pym_scope.
Notation "' pat <- c ;; k" := (PyM.bind c (fun x => match x with pat => k end))
  (at level 61, pat pattern, c at next level, right associativity) : pym_scope.
Notation "c ;;; k" := (PyM.bind c (fun _ => k))
  (at level 61, right associativity) : pym_scope.

(** ** Numbers *)

(** The arithmetic the program uses on one number type. *)
Class Arith (F : Type) : Type := {
  f_zero : F;
  f_one : F;
  f_add : F -> F -> F;
  f_sub : F -> F -> F;
  f_mul : F -> F -> F;
  f_div : F -> F -> F;
  (** [a < b]; false when either side is a NaN *)
  f_ltb : F -> F -> bool;
  (** [a == b]; false when either side is a NaN *)
  f_eqb : F -> F -> bool;
  f_isnan : F -> bool;
  (** conversion of a Python [int] *)
  f_of_Z : Z -> F
}.

(** Python floats [P] and tensor elements [T].  A Python scalar that meets a
    tensor in an operation is first converted to the tensor's dtype. *)
Class Numerics (P T : Type) : Type := {
  py_arith : Arith P;
  t_arith : Arith T;
  to_dtype : P -> T;
  (** the literal [1e-5] *)
  py_1e_5 : P
}.

#[global] Existing Instance t_arith.

Module IEEE.

Definition binary32 : Type := spec_float.
Definition binary64 : Type := spec_float.

Definition is_nan (x : spec_float) : bool :=
  match x with
  | S754_nan => true
  | _ => false
  end.

Definition arith (prec emax : Z) : Arith spec_float := {|
  f_zero := S754_zero false;
  f_one := binary_normalize prec emax 1 0 false;
  f_add := SFadd prec emax;
  f_sub := SFsub prec emax;
  f_mul := SFmul prec emax;
  f_div := SFdiv prec emax;
  f_ltb := SFltb;
  f_eqb := SFeqb;
  f_isnan := is_nan;
  f_of_Z := fun z => binary_normalize prec emax z 0 false
|}.

Definition arith32 : Arith binary32 := arith 24 128.
Definition arith64 : Arith binary64 := arith 53 1024.

(** binary64 to binary32, rounding to nearest even. *)
Definition to_binary32 (x : binary64) : binary32 :=
  match x with
  | S754_finite s m e =>
      binary_normalize 24 128 (if s then Z.neg m else Z.pos m) e s
  | _ => x
  end.

(** [1e-5] is the binary64 number [0x1.4f8b588e368f1p-17]. *)
Definition lit_1e_5 : binary64 := S754_finite false 5902958103587057 (-69).

#[global] Instance numerics : Numerics binary64 binary32 := {|
  py_arith := arith64;
  t_arith := arith32;
  to_dtype := to_binary32;
  py_1e_5 := lit_1e_5
|}.

End IEEE.

Module Exact.

Definition ltb (a b : Qc) : bool :=
  match (a ?= b)%Qc with
  | Lt => true
  | _ => false
  end.

#[global] Instance arith : Arith Qc := {|
  f_zero := 0%Qc;
  f_one := 1%Qc;
  f_add := Qcplus;
  f_sub := Qcminus;
  f_mul := Qcmult;
  f_div := Qcdiv;
  f_ltb := ltb;
  f_eqb := Qc_eq_bool;
  f_isnan := fun _ => false;
  f_of_Z := fun z => Q2Qc (inject_Z z)
|}.

#[global] Instance numerics : Numerics Qc Qc := {|
  py_arith := arith;
  t_arith := arith;
  to_dtype := fun x => x;
  py_1e_5 := Q2Qc (1 # 100000)
|}.

End Exact.

(** ** Tensors as nested lists *)

Section Tensors.

Context {T : Type} {A : Arith T}.

Definition vec : Type := list T.
Definition mat : Type := list (list T).
Definition ten3 : Type := list (list (list T)).

Local Infix "[+]" := f_add (at level 50, left associativity).
Local Infix "[-]" := f_sub (at level 50, left associativity).
Local Infix "[*]" := f_mul (at level 40, left associativity).
Local Infix "[/]" := f_div (at level 40, left associativity).

(** Element-wise combination of two tensors of one shape. *)
Fixpoint map2 {X Y Z : Type} (f : X -> Y -> Z) (xs : list X) (ys : list Y)
  : list Z :=
  match xs, ys with
  | x :: xs', y :: ys' => f x y :: map2 f xs' ys'
  | _, _ => []
  end.

(** [torch.sum] of a vector. *)
Definition vsum (v : vec) : T := fold_left f_add v f_zero.

Definition dot (x y : vec) : T := vsum (map2 f_mul x y).

(** Column [j] of a matrix. *)
Definition column (j : nat) (m : mat) : vec :=
  map (fun row => nth j row f_zero) m.

(** [m.t()] / [m.transpose(...)] of a matrix with [cols] columns. *)
Definition transpose (cols : nat) (m : mat) : mat :=
  map (fun j => column j m) (seq 0 cols).

(** [torch.matmul(a, b)] where [b] has [p] columns. *)
Definition matmul (p : nat) (a b : mat) : mat :=
  map (fun row => map (fun j => dot row (column j b)) (seq 0 p)) a.

(** [torch.sum(m, 0)] of a matrix with [cols] columns. *)
Definition colsum (cols : nat) (m : mat) : vec :=
  map (fun j => vsum (column j m)) (seq 0 cols).

(** [m.flatten()] *)
Definition flatten (m : mat) : vec := concat m.

(** [flat.view(rows, cols)] *)
Definition unflatten (rows cols : nat) (flat : vec) : mat :=
  map (fun i => firstn cols (skipn (i * cols) flat)) (seq 0 rows).

(** [x.flatten(0, 1)] of a 3-d tensor. *)
Definition flatten01 (x : ten3) : mat := concat x.

(** [m.view(bs, -1, d)] of a matrix of rows of width [d]: [bs] groups of
    consecutive rows.  PyTorch raises when the rows cannot be shared out. *)
Definition view_batches (bs : nat) (m : mat) : result ten3 :=
  if (bs =? 0)%nat then
    Raise (RuntimeError "cannot reshape tensor")
  else if (length m mod bs =? 0)%nat then
    let k := (length m / bs)%nat in
    Ok (map (fun b => firstn k (skipn (b * k) m)) (seq 0 bs))
  else Raise (RuntimeError "shape is invalid for input").

(** [x.transpose(2, 1)], the inner matrices having [cols] columns. *)
Definition transpose21 (cols : nat) (x : ten3) : ten3 :=
  map (transpose cols) x.

(** [torch.cat((x, y), dim=2)] *)
Definition cat2 (x y : ten3) : ten3 :=
  map2 (map2 (@app T)) x y.

(** [nn.Linear]: [weight] is [out_features x in_features]. *)
Record Linear : Type := {
  weight : mat;
  bias : vec
}.

Definition linear (l : Linear) (x : vec) : vec :=
  map2 (fun w b => dot x w [+] b) (weight l) (bias l).

(** A [nn.Linear] acts on the last axis. *)
Definition linear3 (l : Linear) (x : ten3) : ten3 :=
  map (map (linear l)) x.

(** [t.bool()] of one element: everything but zero is true. *)
Definition to_bool (x : T) : bool := negb (f_eqb x f_zero).

(** [b.type_as(t)] of one element. *)
Definition of_bool (b : bool) : T := if b then f_one else f_zero.

(** Values only: the gradient graph is not modelled. *)
Definition detach {X : Type} (x : X) : X := x.
Definition clone {X : Type} (x : X) : X := x.

(** *** Nearest codebook entry *)

(** [x] takes the place of the current minimum [m] in [torch.argmin]: a
    NaN counts as smaller than every number, and the first of equals
    stays. *)
Definition precedes (x m : T) : bool :=
  negb (f_isnan m) && (f_isnan x || f_ltb x m).

Fixpoint argmin_from (i best : nat) (m : T) (l : vec) : nat :=
  match l with
  | [] => best
  | x :: l' =>
      if precedes x m then argmin_from (S i) i x l'
      else argmin_from (S i) best m l'
  end.

(** [torch.argmin] of one row; it raises on an empty row. *)
Definition argmin (l : vec) : option nat :=
  match l with
  | [] => None
  | x :: l' => Some (argmin_from 1 0 x l')
  end.

Fixpoint argmin_rows (d : mat) : option (list nat) :=
  match d with
  | [] => Some []
  | row :: d' =>
      match argmin row, argmin_rows d' with
      | Some i, Some is' => Some (i :: is')
      | _, _ => None
      end
  end.

(** [torch.sum(x**2, dim=1)]: the squared norm of every row. *)
Definition sqnorms (m : mat) : vec :=
  map (fun row => vsum (map (fun v => v [*] v) row)) m.

(** Lines 195-197:
    [sum(x**2, 1, keepdim) + sum(codebook**2, 1) - 2 * x @ codebook.t()]
    for a codebook of [k] rows and [d] columns. *)
Definition distances (k d : nat) (x codebook : mat) : mat :=
  let two := f_of_Z 2 in
  let xc := matmul k x (transpose d codebook) in
  map2 (fun xx row =>
          map2 (fun cc m => (xx [+] cc) [-] (two [*] m))
               (sqnorms codebook) row)
       (sqnorms x) xc.

(** Lines 200-202: one row of [zeros(...).scatter_(1, idx, 1)]. *)
Definition one_hot (k i : nat) : vec :=
  map (fun c => if (c =? i)%nat then f_one else f_zero) (seq 0 k).

Definition encodings_of (k : nat) (idx : list nat) : mat :=
  map (one_hot k) idx.

(** *** Loss and straight-through value *)

(** [F.mse_loss(input, target)]: the mean of the squared differences. *)
Definition mse_loss (input target : mat) : T :=
  let sq := map2 (map2 (fun a b => (a [-] b) [*] (a [-] b))) input target in
  vsum (flatten sq) [/] f_of_Z (Z.of_nat (length (flatten sq))).

(** Line 238: [encode_feat + (part_token_feat - encode_feat).detach()]. *)
Definition straight_through (continuous quantized : mat) : mat :=
  map2 (map2 f_add) continuous
       (detach (map2 (map2 f_sub) quantized continuous)).

(** *** Visibility mask *)

(** [joints[:,:,:-1]] and [joints[:,:,-1].bool()] *)
Definition joints_coord_of (joints : ten3) : ten3 :=
  map (map (@removelast T)) joints.

Definition joints_visible_of (joints : ten3) : list (list bool) :=
  map (map (fun j => to_bool (last j f_zero))) joints.

(** Line 185 for one joint: [feat * w + mask_token * (1 - w)]. *)
Definition blend_joint (mask_token : vec) (feat : vec) (visible : bool)
  : vec :=
  let w := of_bool visible in
  map2 (fun e m => (e [*] w) [+] (m [*] (f_one [-] w))) feat mask_token.

Definition blend (mask_token : vec) (feat : ten3)
  (visible : list (list bool)) : ten3 :=
  map2 (map2 (blend_joint mask_token)) feat visible.

(** One joint [x, y, flag] in two calls: the same flag, and the same
    coordinates unless the flag is zero. *)
Definition same_unless_invisible (j1 j2 : vec) : Prop :=
  last j1 f_zero = last j2 f_zero /\
  (to_bool (last j1 f_zero) = true -> removelast j1 = removelast j2).

End Tensors.

(** ** The module *)

Section Model.

Context {P T : Type} {N : Numerics P T}.

Local Infix "[+]" := (@f_add T _) (at level 50, left associativity).
Local Infix "[-]" := (@f_sub T _) (at level 50, left associativity).
Local Infix "[*]" := (@f_mul T _) (at level 40, left associativity).
Local Infix "[/]" := (@f_div T _) (at level 40, left associativity).

(** The attributes of [PCT_Tokenizer] that [forward] reads.  The three
    buffers are the only ones [forward] assigns. *)
Record Self : Type := {
  stage_pct : string;
  guide_ratio : P;
  num_joints : nat;
  drop_rate : P;
  token_num : nat;
  token_class_num : nat;
  token_dim : nat;
  decay : P;
  enc_hidden_dim : nat;
  (** shape [1, 1, enc_hidden_dim]; the two unit axes are dropped *)
  invisible_token : @vec T;
  (** set by the constructor only when [guide_ratio > 0] *)
  start_img_embed : option (@Linear T);
  start_embed : @Linear T;
  encoder : list (@ten3 T -> @ten3 T);
  encoder_layer_norm : @ten3 T -> @ten3 T;
  token_mlp : @Linear T;
  feature_embed : @Linear T;
  codebook : @mat T;
  ema_cluster_size : @vec T;
  ema_w : @mat T;
  decoder_token_mlp : @Linear T;
  decoder_start : @Linear T;
  decoder : list (@ten3 T -> @ten3 T);
  decoder_layer_norm : @ten3 T -> @ten3 T;
  recover_embed : @Linear T
}.

Definition set_buffers (self : Self) (cb : @mat T) (cs : @vec T)
  (w : @mat T) : Self :=
  {| stage_pct := stage_pct self;
     guide_ratio := guide_ratio self;
     num_joints := num_joints self;
     drop_rate := drop_rate self;
     token_num := token_num self;
     token_class_num := token_class_num self;
     token_dim := token_dim self;
     decay := decay self;
     enc_hidden_dim := enc_hidden_dim self;
     invisible_token := invisible_token self;
     start_img_embed := start_img_embed self;
     start_embed := start_embed self;
     encoder := encoder self;
     encoder_layer_norm := encoder_layer_norm self;
     token_mlp := token_mlp self;
     feature_embed := feature_embed self;
     codebook := cb;
     ema_cluster_size := cs;
     ema_w := w;
     decoder_token_mlp := decoder_token_mlp self;
     decoder_start := decoder_start self;
     decoder := decoder self;
     decoder_layer_norm := decoder_layer_norm self;
     recover_embed := recover_embed self |}.

(** The tuple [forward] returns. *)
Record Output : Type := {
  recoverd_joints : @ten3 T;
  encoding_indices : option (list nat);
  e_latent_loss : option T;
  out_part_token_feat : @ten3 T
}.

Definition is_tokenizer (self : Self) : bool :=
  String.eqb (stage_pct self) "tokenizer".

Definition is_classifier (self : Self) : bool :=
  String.eqb (stage_pct self) "classifier".

(** [self.guide_ratio > 0] *)
Definition guided (self : Self) : bool :=
  @f_ltb P py_arith (@f_zero P py_arith) (guide_ratio self).

(** [for num_layer in layers: x = num_layer(x)] *)
Definition run_layers (layers : list (@ten3 T -> @ten3 T)) (x : @ten3 T)
  : @ten3 T :=
  fold_left (fun acc layer => layer acc) layers x.

(** Lines 179-180: [torch.rand(...) > self.drop_rate], [rand] being the
    numbers drawn. *)
Definition rand_mask_ind (self : Self) (rand : @mat T) : list (list bool) :=
  map (map (fun r => f_ltb (to_dtype (drop_rate self)) r)) rand.

(** Lines 173-176. *)
Definition embed (self : Self) (joints_coord : @ten3 T)
  (joints_feature : option (@ten3 T)) : result (@ten3 T) :=
  let encode_feat := linear3 (start_embed self) joints_coord in
  if guided self then
    match start_img_embed self, joints_feature with
    | None, _ => Raise AttributeError
    | Some _, None => Raise TypeError
    | Some img, Some jf => Ok (cat2 encode_feat (linear3 img jf))
    end
  else Ok encode_feat.

(** Lines 178-181. *)
Definition visible_mask (self : Self) (train : bool) (rand : @mat T)
  (joints_visible : list (list bool)) : list (list bool) :=
  if train && is_tokenizer self then
    map2 (map2 andb) (rand_mask_ind self rand) joints_visible
  else joints_visible.

(** Lines 187-193: from the blended features to the token features of
    shape [bs * token_num, token_dim]. *)
Definition tokens_of (self : Self) (encode_feat : @ten3 T) : @mat T :=
  let x := run_layers (encoder self) encode_feat in
  let x := encoder_layer_norm self x in
  let x := transpose21 (enc_hidden_dim self) x in
  let x := transpose21 (token_num self) (linear3 (token_mlp self) x) in
  flatten01 (linear3 (feature_embed self) x).

(** Lines 170-193, the encoder. *)
Definition encode (self : Self) (joints : @ten3 T)
  (joints_feature : option (@ten3 T)) (train : bool) (rand : @mat T)
  : result (@mat T) :=
  let joints_coord := joints_coord_of joints in
  let joints_visible := joints_visible_of joints in
  match embed self joints_coord joints_feature with
  | Raise e => Raise e
  | Ok encode_feat =>
      let joints_visible := visible_mask self train rand joints_visible in
      let mask_tokens := invisible_token self in
      Ok (tokens_of self (blend mask_tokens encode_feat joints_visible))
  end.

(** Lines 195-199. *)
Definition quantize (self : Self) (encode_feat : @mat T)
  : result (list nat) :=
  match argmin_rows (distances (token_class_num self) (token_dim self)
                               encode_feat (codebook self)) with
  | Some idx => Ok idx
  | None => Raise (RuntimeError "argmin of an empty row")
  end.

(** Line 222: [dist.all_reduce], a sum over the ranks.  [world] is [None]
    when no process group was initialised, else the tensors the other
    ranks contribute. *)
Definition all_reduce (world : option (list (@vec T))) (t : @vec T)
  : result (@vec T) :=
  match world with
  | None => Raise ProcessGroupError
  | Some peers =>
      if forallb (fun p => (length p =? length t)%nat) peers then
        Ok (fold_left (map2 f_add) peers t)
      else Raise (RuntimeError "all_reduce of tensors of different sizes")
  end.

(** Lines 231-233: Laplace smoothing of the cluster sizes, [n] being their
    sum. *)
Definition renormalize (k : nat) (cluster_size : @vec T) : @vec T :=
  let n := vsum cluster_size in
  let eps := to_dtype py_1e_5 in
  let keps :=
    to_dtype (@f_mul P py_arith (@f_of_Z P py_arith (Z.of_nat k)) py_1e_5) in
  map (fun s => ((s [+] eps) [/] (n [+] keps)) [*] n) cluster_size.

(** [old * self.decay + (1 - self.decay) * new] *)
Definition ema (self : Self) (old new : T) : T :=
  let one_minus_decay :=
    @f_sub P py_arith (@f_of_Z P py_arith 1) (decay self) in
  (old [*] to_dtype (decay self)) [+] (to_dtype one_minus_decay [*] new).

(** Lines 227-236: the buffers after one EMA step. *)
Definition ema_update (self : Self) (sync_encodings sync_dw : @mat T)
  : Self :=
  let cluster_size :=
    map2 (ema self) (ema_cluster_size self)
         (colsum (token_class_num self) sync_encodings) in
  let cluster_size := renormalize (token_class_num self) cluster_size in
  let w := map2 (map2 (ema self)) (ema_w self) sync_dw in
  let cb := map2 (fun row s => map (fun x => x [/] s) row) w cluster_size in
  set_buffers self cb cluster_size w.

(** Lines 243-256, the decoder, after the [view]. *)
Definition decode (self : Self) (part_token_feat : @ten3 T) : @ten3 T :=
  let x := transpose21 (token_dim self) part_token_feat in
  let x :=
    transpose21 (num_joints self) (linear3 (decoder_token_mlp self) x) in
  let decode_feat := linear3 (decoder_start self) x in
  let decode_feat := run_layers (decoder self) decode_feat in
  let decode_feat := decoder_layer_norm self decode_feat in
  linear3 (recover_embed self) decode_feat.

(** [a // b] on Python ints that are not negative. *)
Definition floordiv (a b : nat) : result nat :=
  if (b =? 0)%nat then Raise ZeroDivisionError else Ok (a / b)%nat.

Local Open Scope pym_scope.

(** Lines 166-208.  The locals [encode_feat], [encoding_indices] and
    [encodings] are bound in the first branch only (the second binds
    [encoding_indices] to [None]); [None] stands for "not bound" in the
    first and the last. *)
Definition encoder_stage (self : Self) (joints : option (@ten3 T))
  (joints_feature : option (@ten3 T)) (cls_logits : option (@mat T))
  (train : bool) (rand : @mat T)
  : PyM.M Self (nat * option (@mat T) * option (list nat)
                * option (@mat T)) :=
  if train || is_tokenizer self then
    joints <- PyM.need joints AttributeError ;;
    encode_feat <- PyM.lift (encode self joints joints_feature train rand) ;;
    encoding_indices <- PyM.lift (quantize self encode_feat) ;;
    let encodings := encodings_of (token_class_num self) encoding_indices in
    PyM.ret (length joints, Some encode_feat, Some encoding_indices,
             Some encodings)
  else
    cls_logits <- PyM.need cls_logits AttributeError ;;
    bs <- PyM.lift (floordiv (length cls_logits) (token_num self)) ;;
    PyM.ret (bs, None, None, None).

(** Lines 210-213. *)
Definition lookup_stage (self : Self) (cls_logits encodings : option (@mat T))
  : PyM.M Self (@mat T) :=
  if is_classifier self then
    cls_logits <- PyM.need cls_logits TypeError ;;
    PyM.ret (matmul (token_dim self) cls_logits (codebook self))
  else
    encodings <- PyM.need encodings (UnboundLocalError "encodings") ;;
    PyM.ret (matmul (token_dim self) encodings (codebook self)).

(** Lines 215-240. *)
Definition ema_stage (self : Self) (train : bool)
  (world : option (list (@vec T)))
  (encode_feat encodings : option (@mat T)) (part_token_feat : @mat T)
  : PyM.M Self (option T * @mat T) :=
  if train && is_tokenizer self then
    encodings <- PyM.need encodings (UnboundLocalError "encodings") ;;
    encode_feat <- PyM.need encode_feat (UnboundLocalError "encode_feat") ;;
    let dw :=
      matmul (token_dim self)
             (transpose (token_class_num self) encodings)
             (detach encode_feat) in
    let n_encodings := length (flatten encodings) in
    let combined := flatten encodings ++ flatten dw in
    combined <- PyM.lift (all_reduce world combined) ;;
    let sync_encodings :=
      unflatten (length encodings) (token_class_num self)
                (firstn n_encodings combined) in
    let sync_dw :=
      unflatten (token_class_num self) (token_dim self)
                (skipn n_encodings combined) in
    PyM.put (ema_update self sync_encodings sync_dw) ;;;
    let e_latent_loss := mse_loss (detach part_token_feat) encode_feat in
    PyM.ret (Some e_latent_loss,
             straight_through encode_feat part_token_feat)
  else PyM.ret (None, part_token_feat).

(** [PCT_Tokenizer.forward].  [rand] is what [torch.rand] draws in this
    call and [world] what [torch.distributed] holds. *)
Definition forward (joints joints_feature : option (@ten3 T))
  (cls_logits : option (@mat T)) (train : bool)
  (rand : @mat T) (world : option (list (@vec T)))
  : PyM.M Self Output :=
  self <- PyM.get ;;
  ' (bs, encode_feat, encoding_indices, encodings) <-
    encoder_stage self joints joints_feature cls_logits train rand ;;
  part_token_feat <- lookup_stage self cls_logits encodings ;;
  ' (e_latent_loss, part_token_feat) <-
    ema_stage self train world encode_feat encodings part_token_feat ;;
  part_token_feat <-
    PyM.lift (view_batches bs part_token_feat) ;;
  let out_part_token_feat := detach (clone part_token_feat) in
  self' <- PyM.get ;;
  PyM.ret {| recoverd_joints := decode self' part_token_feat;
             encoding_indices := encoding_indices;
             e_latent_loss := e_latent_loss;
             out_part_token_feat := out_part_token_feat |}.

End Model.

(** ** Weight loading *)

(** A Python [dict] with string keys, in insertion order. *)
Definition dict (V : Type) : Type := list (string * V).

Fixpoint dict_get {V : Type} (k : string) (d : dict V) : option V :=
  match d with
  | [] => None
  | (k', v) :: d' => if String.eqb k' k then Some v else dict_get k d'
  end.

Definition dict_mem {V : Type} (k : string) (d : dict V) : bool :=
  match dict_get k d with
  | Some _ => true
  | None => false
  end.

(** [d[k] = v]: an existing key keeps its place. *)
Fixpoint dict_set {V : Type} (k : string) (v : V) (d : dict V) : dict V :=
  match d with
  | [] => [(k, v)]
  | (k', v') :: d' =>
      if String.eqb k' k then (k, v) :: d' else (k', v') :: dict_set k v d'
  end.

(** [p in s] for strings. *)
Fixpoint str_contains (p s : string) : bool :=
  String.prefix p s ||
  match s with
  | EmptyString => false
  | String _ s' => str_contains p s'
  end.

(** [s.replace(p, '')] for a [p] that is not empty: the occurrences of [p]
    are dropped from left to right; [skip] counts the characters of an
    occurrence still to drop. *)
Fixpoint str_remove_from (p : string) (skip : nat) (s : string) : string :=
  match s with
  | EmptyString => EmptyString
  | String c s' =>
      match skip with
      | S n => str_remove_from p n s'
      | O =>
          if String.prefix p s
          then str_remove_from p (String.length p - 1) s'
          else String c (str_remove_from p 0 s')
      end
  end.

Definition str_remove (p s : string) : string := str_remove_from p 0 s.

Section Weights.

Context {P T : Type} {N : Numerics P T}.

(** What a checkpoint stores under a parameter name. *)
Variable Value : Type.

(** [nn.Module]'s own methods: the names of the parameters and buffers
    (those of the opaque layers included) and [load_state_dict] with
    [strict=True], which hands back the module it reached also when it
    raises. *)
Variable named_parameters : @Self P T -> list string.
Variable named_buffers : @Self P T -> list string.
Variable load_state_dict :
  @Self P T -> dict Value -> result unit * @Self P T.

(** The file system: [os.path.isfile] and [torch.load]. *)
Record Files : Type := {
  isfile : string -> bool;
  torch_load : string -> result (dict (dict Value))
}.

Definition tokenizer_prefix : string := "keypoint_head.tokenizer.".

Definition classifier_warning : string :=
  "If you are training a classifier, must check that the well-trained tokenizer is located in the correct path.".

(** Lines 283-287: the entries of the checkpoint that name a parameter or
    a buffer of this module. *)
Definition select_state (parameters_names buffers_names : list string)
  (items : dict Value) : dict Value :=
  fold_left
    (fun need_init_state_dict (item : string * Value) =>
       let (name, m) := item in
       let name :=
         if str_contains tokenizer_prefix name
         then str_remove tokenizer_prefix name
         else name in
       if existsb (String.eqb name) parameters_names
          || existsb (String.eqb name) buffers_names
       then dict_set name m need_init_state_dict
       else need_init_state_dict)
    items [].

(** [PCT_Tokenizer.init_weights]: the outcome, the module afterwards and
    the lines printed. *)
Definition init_weights (fs : Files) (self : @Self P T)
  (pretrained : string) : result unit * @Self P T * list string :=
  let parameters_names := named_parameters self in
  let buffers_names := named_buffers self in
  if isfile fs pretrained then
    if negb (is_classifier self) then
      (Raise (AssertionError
                "Training tokenizer does not need to load model"),
       self, [])
    else
      match torch_load fs pretrained with
      | Raise e => (Raise e, self, [])
      | Ok pretrained_state_dict =>
          let key :=
            if dict_mem "state_dict" pretrained_state_dict
            then "state_dict" else "model" in
          match dict_get key pretrained_state_dict with
          | None => (Raise (KeyError key), self, [])
          | Some items =>
              let need_init_state_dict :=
                select_state parameters_names buffers_names items in
              let (r, self') :=
                load_state_dict self need_init_state_dict in
              (r, self', [])
          end
      end
  else if is_classifier self then
    (Ok tt, self, [classifier_warning])
  else (Ok tt, self, []).

End Weights.

(** What [select_state] does with one entry, by parts. *)

(** Lines 284-285: the name an entry of the checkpoint is looked up
    under. *)
Definition stripped (name : string) : string :=
  if str_contains tokenizer_prefix name
  then str_remove tokenizer_prefix name
  else name.

(** Line 286: [name in parameters_names or name in buffers_names]. *)
Definition wanted (parameters_names buffers_names : list string)
  (name : string) : bool :=
  existsb (String.eqb name) parameters_names
  || existsb (String.eqb name) buffers_names.

(** Lines 284-287, one turn of the loop. *)
Definition select_step {Value : Type}
  (parameters_names buffers_names : list string)
  (acc : dict Value) (item : string * Value) : dict Value :=
  if wanted parameters_names buffers_names (stripped (fst item))
  then dict_set (stripped (fst item)) (snd item) acc
  else acc.

(** ** Checkpoints *)

Section Checkpoint.

(** The model, the optimizer and the Python values a checkpoint holds
    (state dicts, the epoch, the loss). *)
Variables Model Optimizer Value : Type.

(** [state_dict()] and [load_state_dict(...)] of both; a load that raises
    hands back the object as far as it got. *)
Variable model_state_dict : Model -> Value.
Variable optimizer_state_dict : Optimizer -> Value.
Variable model_load_state_dict : Model -> Value -> result unit * Model.
Variable optimizer_load_state_dict :
  Optimizer -> Value -> result unit * Optimizer.

(** The files, [torch.save] and [torch.load]. *)
Variable Disk : Type.
Variable torch_save : dict Value -> string -> Disk -> result unit * Disk.
Variable torch_load : string -> Disk -> result (dict Value).

(** What an f-string prints for a value. *)
Variable format : Value -> string.

Definition saved_message (filepath : string) : string :=
  ("Checkpoint saved at " ++ filepath)%string.

Definition loaded_message (filepath : string) (epoch loss : Value)
  : string :=
  ("Checkpoint loaded from " ++ filepath
   ++ ". Resuming training from epoch " ++ format epoch
   ++ " with loss " ++ format loss)%string.

(** [save_checkpoint]: the outcome, the files afterwards and the lines
    printed. *)
Definition save_checkpoint (model : Model) (optimizer : Optimizer)
  (epoch loss : Value) (filepath : string) (disk : Disk)
  : result unit * Disk * list string :=
  let checkpoint :=
    [("epoch", epoch);
     ("model_state_dict", model_state_dict model);
     ("optimizer_state_dict", optimizer_state_dict optimizer);
     ("loss", loss)] in
  match torch_save checkpoint filepath disk with
  | (Ok _, disk') => (Ok tt, disk', [saved_message filepath])
  | (Raise e, disk') => (Raise e, disk', [])
  end.

(** [load_checkpoint]: the outcome, the model and the optimizer
    afterwards and the lines printed. *)
Definition load_checkpoint (model : Model) (optimizer : Optimizer)
  (filepath : string) (disk : Disk)
  : result (Value * Value) * Model * Optimizer * list string :=
  match torch_load filepath disk with
  | Raise e => (Raise e, model, optimizer, [])
  | Ok checkpoint =>
      match dict_get "model_state_dict" checkpoint with
      | None => (Raise (KeyError "model_state_dict"), model, optimizer, [])
      | Some model_state =>
          match model_load_state_dict model model_state with
          | (Raise e, model') => (Raise e, model', optimizer, [])
          | (Ok _, model') =>
              match dict_get "optimizer_state_dict" checkpoint with
              | None =>
                  (Raise (KeyError "optimizer_state_dict"),
                   model', optimizer, [])
              | Some optimizer_state =>
                  match optimizer_load_state_dict optimizer
                                                  optimizer_state with
                  | (Raise e, optimizer') =>
                      (Raise e, model', optimizer', [])
                  | (Ok _, optimizer') =>
                      match dict_get "epoch" checkpoint with
                      | None =>
                          (Raise (KeyError "epoch"),
                           model', optimizer', [])
                      | Some epoch =>
                          match dict_get "loss" checkpoint with
                          | None =>
                              (Raise (KeyError "loss"),
                               model', optimizer', [])
                          | Some loss =>
                              (Ok (epoch, loss), model', optimizer',
                               [loaded_message filepath epoch loss])
                          end
                      end
                  end
              end
          end
      end
  end.

End Checkpoint.

(** ** Truncated normal initialisation *)

Module TruncNormal.

Import IEEE.

(** Python's float operations. *)
Definition py_add : binary64 -> binary64 -> binary64 := @f_add _ arith64.
Definition py_sub : binary64 -> binary64 -> binary64 := @f_sub _ arith64.
Definition py_mul : binary64 -> binary64 -> binary64 := @f_mul _ arith64.
Definition py_float (z : Z) : binary64 := @f_of_Z _ arith64 z.

(** [x / y], which raises when [y] is a zero. *)
Definition py_truediv (x y : binary64) : result binary64 :=
  if SFeqb y (S754_zero false) then Raise ZeroDivisionError
  else Ok (@f_div _ arith64 x y).

(** [math.sqrt(2.)] *)
Definition sqrt2 : binary64 := SFsqrt 53 1024 (py_float 2).

(** [torch.clamp]: [min(max(x, lo), hi)], a NaN on either side giving a
    NaN. *)
Definition tensor_max (x y : binary32) : binary32 :=
  if is_nan x || is_nan y then S754_nan
  else if SFltb x y then y else x.

Definition tensor_min (x y : binary32) : binary32 :=
  if is_nan x || is_nan y then S754_nan
  else if SFltb y x then y else x.

Definition clamp (lo hi x : binary32) : binary32 :=
  tensor_min (tensor_max x lo) hi.

(** [lo <= x <= hi] *)
Definition within (lo hi x : binary32) : bool :=
  SFleb lo x && SFleb x hi.

Definition warning : string :=
  "mean is more than 2 std from [a, b] in nn.init.trunc_normal_. The distribution of values may be incorrect.".

Section Init.

(** [math.erf], one element of [Tensor.erfinv_], and [Tensor.uniform_]
    on the elements of the tensor, which draws or raises. *)
Variable erf : binary64 -> binary64.
Variable erfinv : binary32 -> binary32.
Variable uniform_ :
  binary64 -> binary64 -> list binary32 -> result (list binary32).

(** Lines 19-21; [math.sqrt(2.)] is no zero, so this division does not
    raise. *)
Definition norm_cdf (x : binary64) : binary64 :=
  @f_div _ arith64
    (py_add (py_float 1) (erf (@f_div _ arith64 x sqrt2)))
    (py_float 2).

(** [_trunc_normal_] on the elements of [tensor]: the outcome, the
    elements afterwards and the warnings issued. *)
Definition _trunc_normal_ (tensor : list binary32)
  (mean std a b : binary64)
  : result (list binary32) * list binary32 * list string :=
  let warnings :=
    if SFltb mean (py_sub a (py_mul (py_float 2) std))
       || SFltb (py_add b (py_mul (py_float 2) std)) mean
    then [warning] else [] in
  match py_truediv (py_sub a mean) std with
  | Raise e => (Raise e, tensor, warnings)
  | Ok xl =>
      let l := norm_cdf xl in
      match py_truediv (py_sub b mean) std with
      | Raise e => (Raise e, tensor, warnings)
      | Ok xu =>
          let u := norm_cdf xu in
          match uniform_ (py_sub (py_mul (py_float 2) l) (py_float 1))
                         (py_sub (py_mul (py_float 2) u) (py_float 1))
                         tensor with
          | Raise e => (Raise e, tensor, warnings)
          | Ok tensor =>
              let tensor := map erfinv tensor in
              let tensor :=
                map (fun x => @f_mul _ arith32 x
                                (to_binary32 (py_mul std sqrt2)))
                    tensor in
              let tensor :=
                map (fun x => @f_add _ arith32 x (to_binary32 mean))
                    tensor in
              let tensor :=
                map (clamp (to_binary32 a) (to_binary32 b)) tensor in
              (Ok tensor, tensor, warnings)
          end
      end
  end.

(** [trunc_normal_]: the same under [torch.no_grad()]. *)
Definition trunc_normal_ (tensor : list binary32)
  (mean std a b : binary64)
  : result (list binary32) * list binary32 * list string :=
  _trunc_normal_ tensor mean std a b.

(** [0.02] *)
Definition lit_0_02 : binary64 := S754_finite false 5764607523034235 (-58).

(** Lines 120-122 of [__init__]: the invisible token, [hidden] zeros
    handed to [trunc_normal_]. *)
Definition init_invisible_token (hidden : nat)
  : result (list binary32) * list binary32 * list string :=
  trunc_normal_ (repeat (S754_zero false) hidden)
                (py_float 0) lit_0_02 (SFopp lit_0_02) lit_0_02.

End Init.

End TruncNormal.

(** ** Small modules to run the code on *)

Module Net32.

Import IEEE.

Definition z32 (z : Z) : binary32 := @f_of_Z _ arith32 z.

(** [nn.LayerNorm] over the last axis, as PyTorch documents it:
    [(x - E[x]) / sqrt(Var[x] + eps) * gamma + beta], with the biased
    variance and [eps = 1e-5]. *)
Definition layer_norm (gamma beta : @vec binary32) (x : @ten3 binary32)
  : @ten3 binary32 :=
  let A := arith32 in
  map (map (fun v =>
    let h := f_of_Z (Z.of_nat (length v)) in
    let mean := f_div (vsum v) h in
    let centred := map (fun a => f_sub a mean) v in
    let var := f_div (vsum (map (fun c => f_mul c c) centred)) h in
    let std := SFsqrt 24 128 (f_add var (to_binary32 lit_1e_5)) in
    map2 (fun c gb => f_add (f_mul (f_div c std) (fst gb)) (snd gb))
         centred (combine gamma beta))) x.

(** One pose of two joints, a hidden width of 2, one token of width 1 and
    a codebook of two entries; no Mixer blocks. *)
Definition tiny (stage : string) : @Self binary64 binary32 := {|
  stage_pct := stage;
  guide_ratio := S754_zero false;
  num_joints := 2;
  (* 0.2 *)
  drop_rate := S754_finite false 7205759403792794 (-55);
  token_num := 1;
  token_class_num := 2;
  token_dim := 1;
  (* 0.99 *)
  decay := S754_finite false 8917127262193582 (-53);
  enc_hidden_dim := 2;
  (* 2^-6 *)
  invisible_token := [S754_finite false 8388608 (-29);
                      S754_finite false 8388608 (-29)];
  start_img_embed := None;
  start_embed := {| weight := [[z32 1; z32 1]; [z32 0; z32 1]];
                    bias := [z32 0; z32 0] |};
  encoder := [];
  encoder_layer_norm := layer_norm [z32 1; z32 1] [z32 0; z32 0];
  token_mlp := {| weight := [[z32 1; z32 1]]; bias := [z32 0] |};
  feature_embed := {| weight := [[z32 1; z32 0]]; bias := [z32 0] |};
  codebook := [[z32 1]; [z32 (-2)]];
  ema_cluster_size := [z32 0; z32 0];
  ema_w := [[z32 1]; [z32 (-2)]];
  decoder_token_mlp := {| weight := [[z32 1]; [z32 1]];
                          bias := [z32 0; z32 0] |};
  decoder_start := {| weight := [[z32 1]; [z32 2]];
                      bias := [z32 0; z32 0] |};
  decoder := [];
  decoder_layer_norm := layer_norm [z32 1; z32 1] [z32 0; z32 0];
  recover_embed := {| weight := [[z32 1; z32 0]; [z32 0; z32 1]];
                      bias := [z32 0; z32 0] |}
|}.

(** Both joints visible. *)
Definition joints : @ten3 binary32 :=
  [[[z32 1; z32 2; z32 1]; [z32 3; z32 5; z32 1]]].

(** Draws of [torch.rand], both above the drop rate. *)
Definition rand : @mat binary32 :=
  [[S754_finite false 8388608 (-24); S754_finite false 12582912 (-24)]].

Definition cls_logits : @mat binary32 := [[z32 1; z32 0]].

(** The largest binary32 number, about 3.4e38. *)
Definition max_float : binary32 := S754_finite false 16777215 104.

(** The first joint is invisible; the two poses differ in its
    coordinates only. *)
Definition joints_hidden_a : @ten3 binary32 :=
  [[[z32 0; z32 0; z32 0]; [z32 3; z32 5; z32 1]]].

Definition joints_hidden_b : @ten3 binary32 :=
  [[[max_float; max_float; z32 0]; [z32 3; z32 5; z32 1]]].

Definition joints_hidden_c : @ten3 binary32 :=
  [[[z32 10; z32 (-7); z32 0]; [z32 3; z32 5; z32 1]]].

(** A codebook whose two entries are neighbours: [1 + 2^-23] and [1]. *)
Definition near_codebook : @Self binary64 binary32 :=
  set_buffers (tiny "tokenizer")
              [[S754_finite false 8388609 (-23)]; [z32 1]]
              [z32 0; z32 0]
              [[z32 1]; [z32 1]].

(** Cluster sizes at the top of the binary32 range. *)
Definition large_sizes : @Self binary64 binary32 :=
  set_buffers (tiny "tokenizer")
              [[z32 1]; [z32 (-2)]]
              [max_float; max_float]
              [[z32 1]; [z32 (-2)]].

End Net32.

Module NetQ.

Local Open Scope Qc_scope.

Definition q (n : Z) (d : positive) : Qc := Q2Qc (n # d).

(** [nn.LayerNorm] over a last axis of width 1: the centred entry is
    [x - x = 0], so every entry becomes the bias [beta]. *)
Definition layer_norm1 (beta : Qc) (x : @ten3 Qc) : @ten3 Qc :=
  map (map (map (fun _ => beta))) x.

(** [Net32.tiny] over the rationals, with a hidden width of 1. *)
Definition tiny (stage : string) : @Self Qc Qc := {|
  stage_pct := stage;
  guide_ratio := 0;
  num_joints := 2;
  drop_rate := q 1 5;
  token_num := 1;
  token_class_num := 2;
  token_dim := 1;
  decay := q 99 100;
  enc_hidden_dim := 1;
  invisible_token := [q 1 64];
  start_img_embed := None;
  start_embed := {| weight := [[1; 1]]; bias := [0] |};
  encoder := [];
  encoder_layer_norm := layer_norm1 (q 1 2);
  token_mlp := {| weight := [[1; 1]]; bias := [0] |};
  feature_embed := {| weight := [[1]]; bias := [0] |};
  codebook := [[1]; [q (-2) 1]];
  ema_cluster_size := [0; 0];
  ema_w := [[1]; [q (-2) 1]];
  decoder_token_mlp := {| weight := [[1]; [1]]; bias := [0; 0] |};
  decoder_start := {| weight := [[1]]; bias := [0] |};
  decoder := [];
  decoder_layer_norm := layer_norm1 (q 1 2);
  recover_embed := {| weight := [[1]; [q 2 1]]; bias := [0; 0] |}
|}.

End NetQ.

(** A file system that holds the files [present], none of them a
    checkpoint, and a module without named weights. *)
Module Disk.

Definition fs (present : list string) : Files unit :=
  {| isfile := fun path => existsb (String.eqb path) present;
     torch_load := fun _ => Raise (RuntimeError "not a checkpoint") |}.

Definition no_names (self : @Self IEEE.binary64 IEEE.binary32)
  : list string := [].

Definition load_nothing (self : @Self IEEE.binary64 IEEE.binary32)
  (d : dict unit) : result unit * @Self IEEE.binary64 IEEE.binary32 :=
  (Ok tt, self).

End Disk.

(** Small files, models, optimizers and draws. *)
Module Small.

Import IEEE Net32.

(** A file that holds a dictionary without weights. *)
Definition other_file : Files unit :=
  {| isfile := fun _ => true;
     torch_load := fun _ => Ok [("epoch", [])] |}.

(** Files as a dictionary of what was saved; a model and an optimizer
    that are their state. *)
Definition save_file (c : dict nat) (p : string) (d : dict (dict nat))
  : result unit * dict (dict nat) :=
  (Ok tt, dict_set p c d).

Definition load_file (p : string) (d : dict (dict nat))
  : result (dict nat) :=
  match dict_get p d with
  | Some c => Ok c
  | None => Raise (RuntimeError "no such file")
  end.

Definition take_state (old new : nat) : result unit * nat := (Ok tt, new).

(** An optimizer that refuses every state. *)
Definition refuse_state (old new : nat) : result unit * nat :=
  (Raise (RuntimeError "loaded state dict contains a parameter group that doesn't match"), old).

(** Draws far outside the bounds, an error function that is of no
    account. *)
Definition draws (lo hi : binary64) (t : list binary32)
  : result (list binary32) :=
  Ok [z32 5; z32 (-5); z32 0].

End Small.

(** ** Vocabulary of the statements *)

(** Two lists that a later [map2] with the mask [vs] cannot tell apart:
    related by [R] wherever the mask has an entry. *)
Inductive agree {X M : Type} (R : X -> X -> M -> Prop)
  : list X -> list X -> list M -> Prop :=
| agree_nil : forall vs, agree R [] [] vs
| agree_nomask : forall xs1 xs2, agree R xs1 xs2 []
| agree_cons : forall x1 x2 v xs1 xs2 vs,
    R x1 x2 v -> agree R xs1 xs2 vs ->
    agree R (x1 :: xs1) (x2 :: xs2) (v :: vs).

(** The embedded features of one joint in two calls: of one length, and
    the same when the joint is visible. *)
Definition feat_agree {X : Type} (f1 f2 : list X) (visible : bool) : Prop :=
  length f1 = length f2 /\ (visible = true -> f1 = f2).

Module Binary32Spec.

Import IEEE.

(** Neither an infinity nor a NaN. *)
Definition is_finite (x : binary32) : bool :=
  match x with
  | S754_zero _ | S754_finite _ _ _ => true
  | _ => false
  end.

(** The features [e] of the joints that the mask [vis] hides are finite. *)
Definition hidden_finite (e : @ten3 binary32) (vis : list (list bool))
  : Prop :=
  Forall (fun rv : list (list binary32) * list bool =>
            Forall (fun fv : list binary32 * bool =>
                      snd fv = false ->
                      Forall (fun x => is_finite x = true) (fst fv))
                   (combine (fst rv) (snd rv)))
         (combine e vis).

(** Lines 173-176 give finite features to the joints of flag 0. *)
Definition embedding_finite_where_hidden (self : @Self binary64 binary32)
  (joints : @ten3 binary32) (joints_feature : option (@ten3 binary32))
  : Prop :=
  match embed self (joints_coord_of joints) joints_feature with
  | Ok e => hidden_finite e (joints_visible_of joints)
  | Raise _ => True
  end.

(** What a hidden joint gets from the mask token, [m * (1 - 0)], is never
    the negative zero (whose sum with a zero keeps the sign of that
    zero). *)
Definition no_negative_zero (mask_token : @vec binary32) : Prop :=
  Forall (fun m => f_mul m (f_sub f_one f_zero) <> S754_zero true)
         mask_token.

(** The features of one joint in two calls, as the binary32 blend needs
    them: the same, or both finite, of one length and masked out. *)
Definition blend_alike (f1 f2 : @vec binary32) (v : bool) : Prop :=
  f1 = f2 \/
  (v = false /\ length f1 = length f2 /\
   Forall (fun x => is_finite x = true) f1 /\
   Forall (fun x => is_finite x = true) f2).

End Binary32Spec.

(** *** Over the rationals *)

Module ExactSpec.

Import Exact.
Local Open Scope Qc_scope.

(** [1e-5] and [token_class_num * 1e-5] as the tensor operations see
    them. *)
Definition eps : Qc := to_dtype py_1e_5.

Definition keps (k : nat) : Qc :=
  to_dtype (@f_mul Qc py_arith (@f_of_Z Qc py_arith (Z.of_nat k)) py_1e_5).

Definition sq (v : list Qc) : Qc := vsum (map (fun a => a * a) v).

(** The expansion of one squared distance, as line 195 computes it. *)
Definition expansion (x c : list Qc) : Qc :=
  (sq x + sq c) - Q2Qc (inject_Z 2) * dot x c.

(** The squared distance itself. *)
Definition sqdist (x c : list Qc) : Qc :=
  vsum (map2 (fun a b => (a - b) * (a - b)) x c).

(** [i] is the first position of a least element of [l]. *)
Definition first_least (l : list Qc) (i : nat) : Prop :=
  (i < length l)%nat /\
  Forall (fun x => nth i l 0 <= x) l /\
  forall q, (q < i)%nat -> nth i l 0 < nth q l 0.

End ExactSpec.

(** Shapes: [rows] rows of [cols] entries. *)
Definition has_shape {T : Type} (rows cols : nat) (m : list (list T))
  : Prop :=
  length m = rows /\ Forall (fun r => length r = cols) m.

(** The three buffers have the shapes [__init__] gave them. *)
Definition well_shaped {P T : Type} (self : @Self P T) : Prop :=
  has_shape (token_class_num self) (token_dim self) (codebook self) /\
  length (ema_cluster_size self) = token_class_num self /\
  has_shape (token_class_num self) (token_dim self) (ema_w self).

(** [dw] of line 217. *)
Definition dw_of {P T : Type} {N : Numerics P T} (self : @Self P T)
  (encodings encode_feat : @mat T) : @mat T :=
  matmul (token_dim self) (transpose (token_class_num self) encodings)
         (detach encode_feat).

(** The buffers after an EMA step: every class has its row of [ema_w]
    and its cluster size, and row [c] of the codebook is that row divided,
    entry by entry over the [token_dim] entries, by that size. *)
Definition codebook_invariant {P T : Type} {N : Numerics P T}
  (self : @Self P T) : Prop :=
  forall c, (c < token_class_num self)%nat ->
    exists w size,
      nth_error (ema_w self) c = Some w /\
      nth_error (ema_cluster_size self) c = Some size /\
      length w = token_dim self /\
      nth_error (codebook self) c = Some (map (fun x => f_div x size) w).

(** ** Lists *)

Lemma map2_length {X Y Z} (f : X -> Y -> Z) xs ys :
  length (map2 f xs ys) = Nat.min (length xs) (length ys).
Proof.
  revert ys. induction xs as [|x xs IH]; intros [|y ys]; cbn; auto.
Qed.

Lemma map2_nth {X Y Z} (f : X -> Y -> Z) xs ys i dx dy dz :
  (i < length xs)%nat -> (i < length ys)%nat ->
  nth i (map2 f xs ys) dz = f (nth i xs dx) (nth i ys dy).
Proof.
  revert ys i. induction xs as [|x xs IH]; intros [|y ys] [|i]; cbn;
    intros; try lia; [reflexivity|]. apply IH; lia.
Qed.

Lemma Forall_map2 {X Y Z} (f : X -> Y -> Z) (PX : X -> Prop)
  (PY : Y -> Prop) (PZ : Z -> Prop) xs ys :
  (forall x y, PX x -> PY y -> PZ (f x y)) ->
  Forall PX xs -> Forall PY ys -> Forall PZ (map2 f xs ys).
Proof.
  intros Hf Hx. revert ys.
  induction Hx as [|x xs Hx _ IH]; intros ys Hy; cbn; [constructor|].
  destruct Hy as [|y ys Hy Hys]; constructor; auto.
Qed.

Lemma nth_map_seq {X} (f : nat -> X) (k i : nat) (d : X) :
  (i < k)%nat -> nth i (map f (seq 0 k)) d = f i.
Proof.
  intros Hi. rewrite nth_indep with (d' := f 0%nat)
    by (now rewrite length_map, length_seq).
  rewrite map_nth, seq_nth by lia. reflexivity.
Qed.

Lemma map_nth_seq {X Y} (f : X -> Y) (l : list X) (d : X) :
  map (fun i => f (nth i l d)) (seq 0 (length l)) = map f l.
Proof.
  induction l as [|x l IH]; [reflexivity|].
  cbn [length seq map nth]. f_equal.
  rewrite <- seq_shift, map_map. exact IH.
Qed.

Lemma map2_map_map {X Y Z W} (f : Y -> Z -> W) (g : X -> Y) (h : X -> Z)
  (l : list X) :
  map2 f (map g l) (map h l) = map (fun x => f (g x) (h x)) l.
Proof. induction l as [|x l IH]; cbn; [reflexivity | now rewrite IH]. Qed.

(** ** The stages of [forward] *)

Section Control.

Context {P T : Type} {N : Numerics P T}.

Implicit Types (self s : @Self P T).

Lemma is_tokenizer_spec self :
  is_tokenizer self = true <-> stage_pct self = "tokenizer".
Proof. unfold is_tokenizer. apply String.eqb_eq. Qed.

Lemma is_classifier_spec self :
  is_classifier self = true <-> stage_pct self = "classifier".
Proof. unfold is_classifier. apply String.eqb_eq. Qed.

Lemma need_inv {S A} (o : option A) e (s s' : S) r :
  PyM.need o e s = (r, s') ->
  s' = s /\ ((exists a, o = Some a /\ r = Ok a) \/ (o = None /\ r = Raise e)).
Proof.
  destruct o; cbn; intros H; inversion H; subst; split; eauto.
Qed.

Lemma lift_inv {S A} (x : result A) (s s' : S) r :
  PyM.lift x s = (r, s') -> s' = s /\ r = x.
Proof. cbv [PyM.lift]. intros H; inversion H; auto. Qed.

(** The first two stages only read the module. *)
Lemma encoder_stage_state self joints jf cls train rand s :
  snd (encoder_stage self joints jf cls train rand s) = s.
Proof.
  unfold encoder_stage.
  destruct (train || is_tokenizer self).
  - destruct joints as [j|]; cbn; [|reflexivity].
    destruct (encode self j jf train rand); cbn; [|reflexivity].
    destruct (quantize self a); reflexivity.
  - destruct cls as [c|]; cbn; [|reflexivity].
    destruct (floordiv (length c) (token_num self)); reflexivity.
Qed.

Lemma lookup_stage_state self cls enc s :
  snd (lookup_stage self cls enc s) = s.
Proof.
  unfold lookup_stage.
  destruct (is_classifier self); [destruct cls | destruct enc]; reflexivity.
Qed.

Lemma encoder_stage_indices self joints jf cls train rand s bs ef idx enc s' :
  encoder_stage self joints jf cls train rand s = (Ok (bs, ef, idx, enc), s') ->
  (idx = None <-> train || is_tokenizer self = false).
Proof.
  unfold encoder_stage.
  destruct (train || is_tokenizer self).
  - destruct joints as [j|]; cbn; [|discriminate].
    destruct (encode self j jf train rand); cbn; [|discriminate].
    destruct (quantize self a); cbn; [|discriminate].
    intros H; inversion H; subst. split; discriminate.
  - destruct cls as [c|]; cbn; [|discriminate].
    destruct (floordiv (length c) (token_num self)); cbn; [|discriminate].
    intros H; inversion H; subst. split; reflexivity.
Qed.

Lemma ema_stage_off self train world ef enc ptf s :
  train && is_tokenizer self = false ->
  ema_stage self train world ef enc ptf s = (Ok (None, ptf), s).
Proof. unfold ema_stage. intros ->. reflexivity. Qed.

Lemma ema_stage_on self train world ef enc ptf s l p s' :
  train && is_tokenizer self = true ->
  ema_stage self train world ef enc ptf s = (Ok (l, p), s') ->
  exists encodings encode_feat combined,
    enc = Some encodings /\ ef = Some encode_feat /\
    all_reduce world
      (flatten encodings ++
       flatten (matmul (token_dim self)
                  (transpose (token_class_num self) encodings)
                  encode_feat)) = Ok combined /\
    s' = ema_update self
           (unflatten (length encodings) (token_class_num self)
              (firstn (length (flatten encodings)) combined))
           (unflatten (token_class_num self) (token_dim self)
              (skipn (length (flatten encodings)) combined)) /\
    l = Some (mse_loss ptf encode_feat) /\
    p = straight_through encode_feat ptf.
Proof.
  unfold ema_stage. intros ->.
  destruct enc as [encodings|]; cbn; [|discriminate].
  destruct ef as [encode_feat|]; cbn; [|discriminate].
  unfold detach.
  destruct (all_reduce world _) as [combined|] eqn:E; cbn; [|discriminate].
  intros H; inversion H; subst.
  exists encodings, encode_feat, combined. repeat split; auto.
Qed.

(** How a call of [forward] that returns went through its stages. *)
Lemma forward_inv joints jf cls train rand world self out self' :
  forward joints jf cls train rand world self = (Ok out, self') ->
  exists bs ef enc ptf l p p3,
    encoder_stage self joints jf cls train rand self
      = (Ok (bs, ef, encoding_indices out, enc), self) /\
    lookup_stage self cls enc self = (Ok ptf, self) /\
    ema_stage self train world ef enc ptf self = (Ok (l, p), self') /\
    view_batches bs p = Ok p3 /\
    e_latent_loss out = l /\
    out_part_token_feat out = p3 /\
    recoverd_joints out = decode self' p3.
Proof.
  unfold forward, PyM.bind, PyM.get at 1.
  pose proof (encoder_stage_state self joints jf cls train rand self) as E1.
  destruct (encoder_stage self joints jf cls train rand self)
    as [[[[[bs ef] idx] enc]|e] s1] eqn:S1; cbn in E1; subst s1;
    [|discriminate].
  pose proof (lookup_stage_state self cls enc self) as E2.
  destruct (lookup_stage self cls enc self) as [[ptf|e] s2] eqn:S2;
    cbn in E2; subst s2; [|discriminate].
  destruct (ema_stage self train world ef enc ptf self)
    as [[[l p]|e] s3] eqn:S3; [|discriminate].
  unfold PyM.lift, PyM.get, PyM.ret.
  destruct (view_batches bs p) as [p3|e] eqn:S4; [|discriminate].
  intros H; inversion H; subst; cbn.
  exists bs, ef, enc, ptf, l, p, p3. repeat split; assumption || reflexivity.
Qed.

(** C1: a call of [forward] that returns gives a loss (third output)
    other than [None] exactly when [train] is true and the stage is
    ["tokenizer"]; in every other combination the loss is [None]. *)
Theorem forward_loss_iff joints jf cls train rand world self out self' :
  forward joints jf cls train rand world self = (Ok out, self') ->
  (e_latent_loss out <> None <->
   train = true /\ stage_pct self = "tokenizer").
Proof.
  intros H.
  apply forward_inv in H
    as (bs & ef & enc & ptf & l & p & p3 & _ & _ & H3 & _ & Hl & _).
  rewrite Hl, <- is_tokenizer_spec, <- andb_true_iff.
  destruct (train && is_tokenizer self) eqn:G.
  - apply ema_stage_on in H3 as (? & ? & ? & _ & _ & _ & _ & -> & _);
      [|exact G].
    split; [reflexivity | discriminate].
  - rewrite (ema_stage_off _ _ world ef enc ptf self G) in H3.
    inversion H3; subst. split; [congruence | discriminate].
Qed.

(** C2, as the code has it: a call of [forward] that returns gives
    [encoding_indices = None] exactly when [train] is false and the stage
    is not ["tokenizer"]; a classifier-stage call with [train] true runs
    the encoder and returns its indices. *)
Theorem forward_indices_none_iff joints jf cls train rand world self out self' :
  forward joints jf cls train rand world self = (Ok out, self') ->
  (encoding_indices out = None <->
   train = false /\ stage_pct self <> "tokenizer").
Proof.
  intros H.
  apply forward_inv in H as (bs & ef & enc & ptf & l & p & p3 & H1 & _).
  apply encoder_stage_indices in H1. rewrite H1, orb_false_iff.
  rewrite <- is_tokenizer_spec, not_true_iff_false. reflexivity.
Qed.

(** C3: unless [train] is true and the stage is ["tokenizer"], a call of
    [forward], whether it returns or raises, leaves the module as it was,
    and so its buffers [codebook], [ema_cluster_size] and [ema_w]; this
    covers every call in classifier stage. *)
Theorem forward_buffers_frame joints jf cls train rand world self :
  ~ (train = true /\ stage_pct self = "tokenizer") ->
  let self' := snd (forward joints jf cls train rand world self) in
  self' = self /\
  codebook self' = codebook self /\
  ema_cluster_size self' = ema_cluster_size self /\
  ema_w self' = ema_w self.
Proof.
  intros G.
  assert (G' : train && is_tokenizer self = false).
  { apply not_true_iff_false. rewrite andb_true_iff, is_tokenizer_spec.
    exact G. }
  assert (E : snd (forward joints jf cls train rand world self) = self).
  { unfold forward, PyM.bind, PyM.get at 1.
    pose proof (encoder_stage_state self joints jf cls train rand self)
      as E1.
    destruct (encoder_stage self joints jf cls train rand self)
      as [[[[[bs ef] idx] enc]|e] s1]; cbn in E1; subst s1; [|reflexivity].
    pose proof (lookup_stage_state self cls enc self) as E2.
    destruct (lookup_stage self cls enc self) as [[ptf|e] s2];
      cbn in E2; subst s2; [|reflexivity].
    rewrite (ema_stage_off _ _ world ef enc ptf self G').
    unfold PyM.lift, PyM.get, PyM.ret.
    destruct (view_batches bs ptf); reflexivity. }
  cbn zeta. rewrite E. repeat split.
Qed.

Lemma nth_error_map2 {X Y Z} (f : X -> Y -> Z) xs ys c :
  nth_error (map2 f xs ys) c =
  match nth_error xs c, nth_error ys c with
  | Some x, Some y => Some (f x y)
  | _, _ => None
  end.
Proof.
  revert ys c. induction xs as [|x xs IH]; intros [|y ys] [|c]; cbn;
    try reflexivity.
  - destruct (nth_error xs c); reflexivity.
  - apply IH.
Qed.

(** The buffers after one EMA step: every codebook row is the row of
    [ema_w] divided by the cluster size of its class. *)
Lemma ema_update_invariant self sync_encodings sync_dw c w size :
  let self' := ema_update self sync_encodings sync_dw in
  nth_error (ema_w self') c = Some w ->
  nth_error (ema_cluster_size self') c = Some size ->
  nth_error (codebook self') c = Some (map (fun x => f_div x size) w).
Proof.
  unfold ema_update. cbn [ema_w ema_cluster_size codebook set_buffers].
  intros Hw Hs. rewrite nth_error_map2, Hw, Hs. reflexivity.
Qed.

End Control.


(** ** Masked joints *)

Section Masking.

Context {P T : Type} {N : Numerics P T}.

Lemma agree_map2_eq {X M Y} (R : X -> X -> M -> Prop) (f : X -> M -> Y)
  xs1 xs2 vs :
  (forall x1 x2 v, R x1 x2 v -> f x1 v = f x2 v) ->
  agree R xs1 xs2 vs -> map2 f xs1 vs = map2 f xs2 vs.
Proof.
  intros Hf. induction 1 as [vs|xs1 xs2|x1 x2 v xs1 xs2 vs Hx _ IH]; cbn.
  - reflexivity.
  - destruct xs1, xs2; reflexivity.
  - f_equal; auto.
Qed.

Lemma agree_zip {X M G} (R R' : X -> X -> M -> Prop) (h : X -> G -> X)
  xs1 xs2 vs :
  (forall x1 x2 v g, R x1 x2 v -> R' (h x1 g) (h x2 g) v) ->
  agree R xs1 xs2 vs ->
  forall gs, agree R' (map2 h xs1 gs) (map2 h xs2 gs) vs.
Proof.
  intros Hh. induction 1 as [vs|xs1 xs2|x1 x2 v xs1 xs2 vs Hx _ IH];
    intros gs.
  - constructor.
  - constructor.
  - destruct gs as [|g gs]; cbn; constructor; auto.
Qed.

Lemma agree_mask {X M B} (R R' : X -> X -> M -> Prop) (a : B -> M -> M)
  xs1 xs2 vs :
  (forall x1 x2 v r, R x1 x2 v -> R' x1 x2 (a r v)) ->
  agree R xs1 xs2 vs ->
  forall rs, agree R' xs1 xs2 (map2 a rs vs).
Proof.
  intros Ha. induction 1 as [vs|xs1 xs2|x1 x2 v xs1 xs2 vs Hx _ IH];
    intros rs.
  - constructor.
  - destruct rs; constructor.
  - destruct rs as [|r rs]; cbn; constructor; auto.
Qed.

Lemma agree_of_Forall2 {J X M} (R0 : J -> J -> Prop)
  (R : X -> X -> M -> Prop) (e : J -> X) (v : J -> M) l1 l2 :
  (forall a b, R0 a b -> R (e a) (e b) (v a)) ->
  Forall2 R0 l1 l2 -> agree R (map e l1) (map e l2) (map v l1).
Proof.
  intros He. induction 1; cbn; constructor; auto.
Qed.

(** Two related lists, each with a property of its entries under the
    mask, are related by what the three give together. *)
Lemma agree_combine {X M} (R1 R : X -> X -> M -> Prop)
  (P1 P2 : X * M -> Prop) xs1 xs2 vs :
  (forall x1 x2 v, R1 x1 x2 v -> P1 (x1, v) -> P2 (x2, v) -> R x1 x2 v) ->
  agree R1 xs1 xs2 vs ->
  Forall P1 (combine xs1 vs) -> Forall P2 (combine xs2 vs) ->
  agree R xs1 xs2 vs.
Proof.
  intros HR. induction 1 as [vs|xs1 xs2|x1 x2 v xs1 xs2 vs Hx _ IH];
    cbn [combine]; intros H1 H2.
  - constructor.
  - constructor.
  - inversion H1; inversion H2; subst. constructor; auto.
Qed.

Lemma linear_length (l : @Linear T) (x : @vec T) :
  length (linear l x) = Nat.min (length (weight l)) (length (bias l)).
Proof. unfold linear. apply map2_length. Qed.

Lemma visible_same (joints1 joints2 : @ten3 T) :
  Forall2 (Forall2 same_unless_invisible) joints1 joints2 ->
  joints_visible_of joints1 = joints_visible_of joints2.
Proof.
  unfold joints_visible_of.
  induction 1 as [|r1 r2 js1 js2 Hr _ IH]; cbn [map]; [reflexivity|].
  f_equal; [|exact IH].
  induction Hr as [|a b r1 r2 [Hab _] _ IHr]; cbn [map]; [reflexivity|].
  f_equal; [now rewrite Hab | exact IHr].
Qed.

Variable self : @Self P T.

(** The embedded features of two such poses: of one shape, and the same
    at every visible joint. *)
Lemma embed_agree (joints1 joints2 : @ten3 T) jf :
  Forall2 (Forall2 same_unless_invisible) joints1 joints2 ->
  match embed self (joints_coord_of joints1) jf,
        embed self (joints_coord_of joints2) jf with
  | Ok e1, Ok e2 =>
      agree (agree feat_agree) e1 e2 (joints_visible_of joints1)
  | Raise x1, Raise x2 => x1 = x2
  | _, _ => False
  end.
Proof.
  intros H.
  assert (G : forall l : @Linear T,
             agree (agree feat_agree)
               (linear3 l (joints_coord_of joints1))
               (linear3 l (joints_coord_of joints2))
               (joints_visible_of joints1)).
  { intros l. unfold linear3, joints_coord_of, joints_visible_of.
    rewrite !map_map.
    apply agree_of_Forall2 with (R0 := Forall2 same_unless_invisible);
      [|exact H].
    intros r1 r2 Hr. rewrite !map_map.
    apply agree_of_Forall2 with (R0 := same_unless_invisible);
      [|exact Hr].
    intros a b [_ Hab]. split.
    - now rewrite !linear_length.
    - intros Hv. now rewrite (Hab Hv). }
  unfold embed. destruct (guided self); [|apply G].
  destruct (start_img_embed self) as [img|]; [|reflexivity].
  destruct jf as [jf|]; [|reflexivity].
  unfold cat2. apply agree_zip with (R := agree feat_agree); [|apply G].
  intros r1 r2 vs gs Hr.
  apply agree_zip with (R := feat_agree); [|exact Hr].
  intros f1 f2 v g [Hlen Heq]. split.
  - now rewrite !length_app, Hlen.
  - intros Hv. now rewrite (Heq Hv).
Qed.

(** A relation [R] between the features of a joint in the two calls that
    the blend cannot tell apart and that masking more joints keeps. *)
Variable R : @vec T -> @vec T -> bool -> Prop.
Hypothesis R_blend : forall f1 f2 v,
  R f1 f2 v ->
  blend_joint (invisible_token self) f1 v
  = blend_joint (invisible_token self) f2 v.
Hypothesis R_mask : forall f1 f2 v r, R f1 f2 v -> R f1 f2 (r && v).

Lemma encode_agree (joints1 joints2 : @ten3 T) jf train rand :
  joints_visible_of joints1 = joints_visible_of joints2 ->
  match embed self (joints_coord_of joints1) jf,
        embed self (joints_coord_of joints2) jf with
  | Ok e1, Ok e2 => agree (agree R) e1 e2 (joints_visible_of joints1)
  | Raise x1, Raise x2 => x1 = x2
  | _, _ => False
  end ->
  encode self joints1 jf train rand = encode self joints2 jf train rand.
Proof.
  intros Hv G. unfold encode. rewrite <- Hv.
  destruct (embed self (joints_coord_of joints1) jf) as [e1|x1],
           (embed self (joints_coord_of joints2) jf) as [e2|x2];
    try contradiction; [|now subst].
  f_equal. f_equal. unfold blend.
  apply agree_map2_eq with (R := agree R).
  - intros r1 r2 vs Hr.
    apply agree_map2_eq with (R := R); [|exact Hr]. exact R_blend.
  - unfold visible_mask.
    destruct (train && is_tokenizer self); [|exact G].
    apply agree_mask with (R := agree R); [|exact G].
    intros r1 r2 vs rs Hr.
    apply agree_mask with (R := R); [|exact Hr].
    intros f1 f2 v r. apply R_mask.
Qed.

(** [forward] reads the pose through its length and [encode] only. *)
Lemma forward_of_encode (joints1 joints2 : @ten3 T) jf cls train rand world :
  length joints1 = length joints2 ->
  encode self joints1 jf train rand = encode self joints2 jf train rand ->
  forward (Some joints1) jf cls train rand world self
  = forward (Some joints2) jf cls train rand world self.
Proof.
  intros L E.
  unfold forward, PyM.bind, PyM.get at 1 3.
  unfold encoder_stage. cbn [PyM.need PyM.bind PyM.ret].
  unfold PyM.bind, PyM.ret, PyM.lift.
  rewrite E, L. reflexivity.
Qed.

End Masking.


(** ** Weight loading *)

Section WeightsFacts.

Context {P T : Type} {N : Numerics P T}.

Variable Value : Type.
Variable named_parameters : @Self P T -> list string.
Variable named_buffers : @Self P T -> list string.
Variable load_state_dict :
  @Self P T -> dict Value -> result unit * @Self P T.

(** C9, as the code has it: in tokenizer stage [init_weights] fails with
    the assertion, before anything is loaded, when [pretrained] is an
    existing file, and returns without loading or printing when it is
    not; in classifier stage without such a file it returns without
    loading and prints the warning. *)
Theorem init_weights_guard (fs : Files Value) (self : @Self P T)
  (pretrained : string) :
  let r :=
    init_weights named_parameters named_buffers load_state_dict
                 fs self pretrained in
  (stage_pct self = "tokenizer" -> isfile fs pretrained = true ->
   r = (Raise (AssertionError
                 "Training tokenizer does not need to load model"),
        self, [])) /\
  (stage_pct self = "tokenizer" -> isfile fs pretrained = false ->
   r = (Ok tt, self, [])) /\
  (stage_pct self = "classifier" -> isfile fs pretrained = false ->
   r = (Ok tt, self, [classifier_warning])).
Proof.
  cbn zeta. unfold init_weights, is_classifier.
  repeat split; intros Hs Hf; rewrite Hs, Hf; reflexivity.
Qed.

End WeightsFacts.

(** ** Exact arithmetic *)

Module ExactFacts.

Import Exact ExactSpec.
Local Open Scope Qc_scope.

Lemma Qc_this_plus (a b : Qc) : (this (a + b) == this a + this b)%Q.
Proof. apply Qred_correct. Qed.

Lemma Qc_this_mult (a b : Qc) : (this (a * b) == this a * this b)%Q.
Proof. apply Qred_correct. Qed.

Lemma Qc_this_inv (a : Qc) : (this (/ a) == / this a)%Q.
Proof. apply Qred_correct. Qed.

Lemma Qc_add_nonneg (a b : Qc) : 0 <= a -> 0 <= b -> 0 <= a + b.
Proof.
  unfold Qcle. rewrite Qc_this_plus. cbn. lra.
Qed.

Lemma Qc_add_pos_l (a b : Qc) : 0 < a -> 0 <= b -> 0 < a + b.
Proof.
  unfold Qcle, Qclt. rewrite Qc_this_plus. cbn. lra.
Qed.

Lemma Qc_add_pos_r (a b : Qc) : 0 <= a -> 0 < b -> 0 < a + b.
Proof.
  unfold Qcle, Qclt. rewrite Qc_this_plus. cbn. lra.
Qed.

Lemma Qc_mul_nonneg (a b : Qc) : 0 <= a -> 0 <= b -> 0 <= a * b.
Proof.
  unfold Qcle. rewrite Qc_this_mult. cbn. nra.
Qed.

Lemma Qc_mul_pos (a b : Qc) : 0 < a -> 0 < b -> 0 < a * b.
Proof.
  unfold Qclt. rewrite Qc_this_mult. cbn. nra.
Qed.

Lemma Qc_inv_pos (a : Qc) : 0 < a -> 0 < / a.
Proof.
  unfold Qclt. rewrite Qc_this_inv. cbn. apply Qinv_lt_0_compat.
Qed.

Lemma Qc_div_pos (a b : Qc) : 0 < a -> 0 < b -> 0 < a / b.
Proof.
  intros. unfold Qcdiv. apply Qc_mul_pos; auto using Qc_inv_pos.
Qed.

Lemma Qc_square_nonneg (a : Qc) : 0 <= a * a.
Proof.
  unfold Qcle. rewrite Qc_this_mult. cbn. nra.
Qed.

Lemma Qc_pos_neq (a : Qc) : 0 < a -> a <> 0.
Proof. intros H E. subst. exact (Qclt_not_le _ _ H (Qcle_refl 0)). Qed.

Lemma vsum_acc (l : list Qc) (a : Qc) : fold_left Qcplus l a = a + vsum l.
Proof.
  unfold vsum. cbn. revert a.
  induction l as [|x l IH]; intros a; cbn.
  - ring.
  - rewrite IH, (IH (0 + x)). ring.
Qed.

Lemma vsum_cons (x : Qc) (l : list Qc) : vsum (x :: l) = x + vsum l.
Proof.
  unfold vsum at 1. cbn. rewrite vsum_acc. ring.
Qed.

Lemma vsum_nil : vsum (@nil Qc) = 0.
Proof. reflexivity. Qed.

Lemma vsum_nonneg (l : list Qc) : Forall (fun x => 0 <= x) l -> 0 <= vsum l.
Proof.
  induction 1 as [|x l Hx _ IH].
  - apply Qcle_refl.
  - rewrite vsum_cons. now apply Qc_add_nonneg.
Qed.

(** C7, without rounding: over the rationals, for [continuous] and
    [quantized] of one shape, the straight-through value
    [continuous + (quantized - continuous).detach()] is [quantized],
    element by element. *)
Theorem straight_through_exact (continuous quantized : list (list Qc)) :
  Forall2 (fun c q => length c = length q) continuous quantized ->
  straight_through continuous quantized = quantized.
Proof.
  unfold straight_through, detach.
  induction 1 as [|c q cs qs Hlen _ IH]; cbn; [reflexivity|].
  f_equal; [|exact IH].
  clear IH. revert q Hlen.
  induction c as [|x c IHc]; intros [|y q] Hlen; cbn in *;
    try discriminate; [reflexivity|].
  f_equal; [ring | apply IHc; congruence].
Qed.


Lemma eps_pos : 0 < eps.
Proof. reflexivity. Qed.

Lemma of_nat_succ (k : nat) :
  Q2Qc (inject_Z (Z.of_nat (S k))) = 1 + Q2Qc (inject_Z (Z.of_nat k)).
Proof.
  apply Qc_is_canon. rewrite Qc_this_plus. cbn [this Q2Qc].
  rewrite !Qred_correct, Nat2Z.inj_succ. unfold Z.succ.
  rewrite inject_Z_plus. cbn. ring.
Qed.

Lemma keps_succ (k : nat) : keps (S k) = eps + keps k.
Proof.
  unfold keps, eps. cbn [to_dtype numerics py_arith f_mul f_of_Z arith py_1e_5].
  rewrite of_nat_succ. ring.
Qed.

Lemma keps_zero : keps 0 = 0.
Proof. apply Qc_is_canon. reflexivity. Qed.

Lemma keps_nonneg (k : nat) : 0 <= keps k.
Proof.
  induction k as [|k IH].
  - rewrite keps_zero. apply Qcle_refl.
  - rewrite keps_succ. apply Qc_add_nonneg; [|exact IH].
    apply Qclt_le_weak, eps_pos.
Qed.

Lemma renormalize_unfold (k : nat) (s : list Qc) :
  renormalize k s =
  map (fun x => (x + eps) / (vsum s + keps k) * vsum s) s.
Proof. reflexivity. Qed.

(** The smoothed sizes, before the division, add up to the divisor. *)
Lemma vsum_smoothed (d n : Qc) (s : list Qc) :
  vsum (map (fun x => (x + eps) / d * n) s)
  = (vsum s + keps (length s)) / d * n.
Proof.
  induction s as [|x s IH]; cbn [map length].
  - rewrite vsum_nil, keps_zero. unfold Qcdiv. ring.
  - rewrite !vsum_cons, IH, keps_succ. unfold Qcdiv. ring.
Qed.

(** C5, without rounding: over the rationals, for [token_class_num]
    cluster sizes none of which is negative, the sizes after
    [(s + 1e-5) / (n + token_class_num * 1e-5) * n] add up to [n], their
    sum before. *)
Theorem renormalize_mass_exact (k : nat) (s : list Qc) :
  length s = k ->
  Forall (fun x => 0 <= x) s ->
  vsum (renormalize k s) = vsum s.
Proof.
  intros Hk Hs. rewrite renormalize_unfold, vsum_smoothed, Hk.
  destruct k as [|k].
  - destruct s; [|discriminate]. rewrite vsum_nil. unfold Qcdiv. ring.
  - assert (0 < vsum s + keps (S k)) as Hd.
    { rewrite keps_succ. apply Qc_add_pos_r; [now apply vsum_nonneg|].
      apply Qc_add_pos_l; [exact eps_pos | apply keps_nonneg]. }
    apply Qc_pos_neq in Hd. field. exact Hd.
Qed.






Lemma vsum_pos (l : list Qc) (i : nat) :
  Forall (fun x => 0 <= x) l -> 0 < nth i l 0 -> 0 < vsum l.
Proof.
  intros Hl. revert i.
  induction Hl as [|x l Hx Hl IH]; intros [|i]; cbn [nth]; intros Hi.
  - exact Hi.
  - exact Hi.
  - rewrite vsum_cons. apply Qc_add_pos_l; [exact Hi|].
    now apply vsum_nonneg.
  - rewrite vsum_cons. apply Qc_add_pos_r; [exact Hx|]. now apply (IH i).
Qed.

(** *** One-hot rows *)

Lemma one_hot_nth (k i c : nat) :
  (c < k)%nat ->
  nth c (one_hot k i) 0 = if (c =? i)%nat then 1 else 0.
Proof. intros Hc. unfold one_hot. now rewrite nth_map_seq. Qed.

Lemma one_hot_nonneg (k i : nat) : Forall (fun x => 0 <= x) (one_hot k i).
Proof.
  unfold one_hot. apply Forall_map, Forall_forall. intros c _.
  destruct (c =? i)%nat; [discriminate | apply Qcle_refl].
Qed.

Lemma nth_nonneg (l : list Qc) (c : nat) :
  Forall (fun x => 0 <= x) l -> 0 <= nth c l 0.
Proof.
  intros Hl. destruct (Nat.lt_ge_cases c (length l)) as [H|H].
  - rewrite Forall_forall in Hl. apply Hl, nth_In, H.
  - rewrite nth_overflow by exact H. apply Qcle_refl.
Qed.

Lemma column_nonneg (c : nat) (m : list (list Qc)) :
  Forall (Forall (fun x => 0 <= x)) m ->
  Forall (fun x => 0 <= x) (column c m).
Proof.
  intros Hm. unfold column. apply Forall_map.
  revert Hm. apply Forall_impl. intros row. apply nth_nonneg.
Qed.

Lemma colsum_nonneg (k : nat) (m : list (list Qc)) :
  Forall (Forall (fun x => 0 <= x)) m ->
  Forall (fun x => 0 <= x) (colsum k m).
Proof.
  intros Hm. unfold colsum. apply Forall_map, Forall_forall. intros c _.
  apply vsum_nonneg. now apply column_nonneg.
Qed.

Lemma encodings_nonneg (k : nat) (idx : list nat) :
  Forall (Forall (fun x : Qc => 0 <= x)) (encodings_of k idx).
Proof.
  unfold encodings_of. apply Forall_map, Forall_forall. intros i _.
  apply one_hot_nonneg.
Qed.

(** *** The EMA step *)

Section Step.

Variable self : @Self Qc Qc.
Hypothesis decay_pos : 0 < decay self.
Hypothesis decay_lt_1 : decay self < 1.

Lemma ema_unfold (old new : Qc) :
  ema self old new = old * decay self + (1 - decay self) * new.
Proof.
  unfold ema. cbn [to_dtype numerics py_arith f_sub f_of_Z arith f_add
                   f_mul t_arith].
  replace (Q2Qc (inject_Z 1)) with 1 by (apply Qc_is_canon; reflexivity).
  reflexivity.
Qed.

Lemma one_minus_decay_pos : 0 < 1 - decay self.
Proof.
  unfold Qcminus. apply -> Qclt_minus_iff. exact decay_lt_1.
Qed.

Lemma ema_nonneg (old new : Qc) :
  0 <= old -> 0 <= new -> 0 <= ema self old new.
Proof.
  intros Ho Hn. rewrite ema_unfold.
  apply Qc_add_nonneg; apply Qc_mul_nonneg; auto using Qclt_le_weak,
    one_minus_decay_pos.
Qed.

Lemma ema_pos (old new : Qc) :
  0 <= old -> 0 < new -> 0 < ema self old new.
Proof.
  intros Ho Hn. rewrite ema_unfold.
  apply Qc_add_pos_r.
  - apply Qc_mul_nonneg; auto using Qclt_le_weak.
  - apply Qc_mul_pos; auto using one_minus_decay_pos.
Qed.

(** C10, without rounding and overflow: over the rationals, with
    [decay] in (0, 1), the old cluster sizes not negative and at least
    one one-hot assignment row, every cluster size is strictly positive
    after the EMA step, so [ema_w / ema_cluster_size] divides by no
    zero. *)
Theorem ema_cluster_size_positive_exact (idx : list nat)
  (sync_dw : list (list Qc)) :
  idx <> [] ->
  Forall (fun i => (i < token_class_num self)%nat) idx ->
  length (ema_cluster_size self) = token_class_num self ->
  Forall (fun s => 0 <= s) (ema_cluster_size self) ->
  let self' :=
    ema_update self (encodings_of (token_class_num self) idx) sync_dw in
  length (ema_cluster_size self') = token_class_num self /\
  Forall (fun s => 0 < s) (ema_cluster_size self').
Proof.
  intros Hidx Hlt Hlen Hnn. cbn zeta.
  unfold ema_update. cbn [ema_cluster_size set_buffers].
  change (@t_arith Qc Qc numerics) with arith.
  set (k := token_class_num self) in *.
  set (enc := encodings_of k idx).
  set (cs := map2 (ema self) (ema_cluster_size self) (colsum k enc)).
  assert (Hcl : length (colsum k enc) = k)
    by (unfold colsum; now rewrite length_map, length_seq).
  assert (Hcs : Forall (fun x => 0 <= x) cs).
  { apply Forall_map2 with (PX := fun x => 0 <= x) (PY := fun x => 0 <= x).
    - apply ema_nonneg.
    - exact Hnn.
    - apply colsum_nonneg, encodings_nonneg. }
  assert (Hn : 0 < vsum cs).
  { destruct idx as [|i0 idx']; [congruence|].
    inversion Hlt as [|? ? Hi0 _]; subst.
    apply vsum_pos with (i := i0); [exact Hcs|].
    unfold cs.
    rewrite map2_nth with (dx := 0) (dy := 0)
      by (rewrite ?Hlen, ?Hcl; exact Hi0).
    apply ema_pos; [now apply nth_nonneg|].
    unfold colsum. rewrite nth_map_seq by exact Hi0.
    unfold enc. cbn [encodings_of map column]. rewrite vsum_cons.
    rewrite one_hot_nth, Nat.eqb_refl by exact Hi0.
    apply Qc_add_pos_l; [reflexivity|].
    apply vsum_nonneg.
    apply (column_nonneg i0 (m := encodings_of k idx')).
    apply encodings_nonneg. }
  split.
  - rewrite renormalize_unfold, length_map. unfold cs.
    rewrite map2_length, Hlen, Hcl. apply Nat.min_id.
  - rewrite renormalize_unfold. apply Forall_map.
    revert Hcs. apply Forall_impl. intros s Hs.
    apply Qc_mul_pos; [|exact Hn].
    apply Qc_div_pos.
    + apply Qc_add_pos_r; [exact Hs | exact eps_pos].
    + apply Qc_add_pos_l; [exact Hn | apply keps_nonneg].
Qed.

End Step.


(** *** The distance expansion *)



Lemma nth_column (i j : nat) (m : list (list Qc)) :
  nth j (column i m) 0 = nth i (nth j m []) 0.
Proof.
  revert j. induction m as [|row m IH]; intros [|j]; cbn; auto;
    destruct i; reflexivity.
Qed.

Lemma column_transpose (d j : nat) (cb : list (list Qc)) :
  length (nth j cb []) = d ->
  column j (transpose d cb) = nth j cb [].
Proof.
  intros Hd. unfold transpose, column at 1. rewrite map_map. subst d.
  transitivity (map (fun x : Qc => x) (nth j cb [])); [|apply map_id].
  rewrite <- (map_nth_seq (fun x => x) (nth j cb []) 0).
  apply map_ext. intros i. apply nth_column.
Qed.

Lemma Forall_nth_length (d j : nat) (cb : list (list Qc)) :
  Forall (fun c => length c = d) cb -> (j < length cb)%nat ->
  length (nth j cb []) = d.
Proof.
  intros H Hj. rewrite Forall_forall in H. apply H, nth_In, Hj.
Qed.

(** The products [x @ codebook.t()] of one row. *)
Lemma matmul_transpose_row (d : nat) (x : list Qc) (cb : list (list Qc)) :
  Forall (fun c => length c = d) cb ->
  map (fun j => dot x (column j (transpose d cb))) (seq 0 (length cb))
  = map (dot x) cb.
Proof.
  intros Hcb. rewrite <- (map_nth_seq (dot x) cb []).
  apply map_ext_in. intros j Hj. apply in_seq in Hj.
  rewrite column_transpose; [reflexivity|].
  apply Forall_nth_length; [exact Hcb | apply Hj].
Qed.

Lemma distances_rows (d : nat) (x cb : list (list Qc)) :
  Forall (fun c => length c = d) cb ->
  distances (length cb) d x cb
  = map (fun row => map (expansion row) cb) x.
Proof.
  intros Hcb. unfold distances, matmul, sqnorms.
  rewrite map2_map_map. apply map_ext. intros row.
  rewrite matmul_transpose_row by exact Hcb.
  rewrite map2_map_map. reflexivity.
Qed.

Lemma expansion_sqdist (x c : list Qc) :
  length x = length c -> expansion x c = sqdist x c.
Proof.
  unfold expansion, sqdist, sq, dot.
  replace (Q2Qc (inject_Z 2)) with (1 + 1)
    by (apply Qc_is_canon; reflexivity).
  revert c. induction x as [|a x IH]; intros [|b c] Hlen;
    try discriminate.
  - cbn. ring.
  - cbn [map map2]. rewrite !vsum_cons.
    rewrite <- (IH c) by (cbn in Hlen; congruence).
    cbn [f_mul arith]. ring.
Qed.

Lemma sqdist_nonneg (x c : list Qc) : 0 <= sqdist x c.
Proof.
  unfold sqdist. apply vsum_nonneg.
  revert c. induction x as [|a x IH]; intros [|b c]; cbn; constructor.
  - apply Qc_square_nonneg.
  - apply IH.
Qed.

Lemma sqdist_refl (x : list Qc) : sqdist x x = 0.
Proof.
  unfold sqdist. induction x as [|a x IH]; [reflexivity|].
  cbn [map2]. rewrite vsum_cons, IH. ring.
Qed.

Lemma Qc_square_zero (a : Qc) : a * a = 0 -> a = 0.
Proof. intros H. now destruct (Qcmult_integral _ _ H). Qed.

Lemma Qc_add_zero (a b : Qc) : 0 <= a -> 0 <= b -> a + b = 0 -> a = 0 /\ b = 0.
Proof.
  intros Ha Hb H.
  assert (a <= 0).
  { rewrite <- H. rewrite <- (Qcplus_0_r a) at 1.
    apply Qcplus_le_compat; [apply Qcle_refl | exact Hb]. }
  assert (a = 0) by now apply Qcle_antisym.
  subst a. split; [reflexivity|]. now rewrite Qcplus_0_l in H.
Qed.

Lemma sqdist_zero (x c : list Qc) :
  length x = length c -> sqdist x c = 0 -> x = c.
Proof.
  revert c. induction x as [|a x IH]; intros [|b c] Hlen H;
    try discriminate; [reflexivity|].
  unfold sqdist in H. cbn [map2] in H. rewrite vsum_cons in H.
  apply Qc_add_zero in H as [Ha Hx];
    [| apply Qc_square_nonneg | apply (sqdist_nonneg x c)].
  apply Qc_square_zero in Ha.
  f_equal.
  - replace a with ((a - b) + b) by ring. rewrite Ha. ring.
  - apply IH; [cbn in Hlen; congruence | exact Hx].
Qed.


(** *** argmin over the rationals *)

Lemma ltb_lt (a b : Qc) : ltb a b = true <-> a < b.
Proof.
  unfold ltb. rewrite Qclt_alt. destruct (a ?= b); split; congruence.
Qed.

Lemma ltb_ge (a b : Qc) : ltb a b = false <-> b <= a.
Proof.
  rewrite <- not_true_iff_false, ltb_lt. split.
  - apply Qcnot_lt_le.
  - intros H G. exact (Qclt_not_le _ _ G H).
Qed.

Lemma precedes_lt (x m : Qc) : precedes x m = ltb x m.
Proof. reflexivity. Qed.

Lemma argmin_from_spec (l : list Qc) (i best : nat) (m : Qc) :
  (argmin_from i best m l = best /\ Forall (fun x => m <= x) l) \/
  (exists p, argmin_from i best m l = (i + p)%nat /\
             nth p l 0 < m /\ first_least l p).
Proof.
  revert i best m.
  induction l as [|x l IH]; intros i best m; cbn [argmin_from].
  - left. split; [reflexivity | constructor].
  - rewrite precedes_lt. destruct (ltb x m) eqn:E.
    + apply ltb_lt in E. right.
      destruct (IH (S i) i x)
        as [[-> Hall] | (p & -> & Hp & Hlt & Hmin & Hfst)].
      * exists 0%nat. rewrite Nat.add_0_r. split; [reflexivity|].
        split; [exact E|]. split; [cbn; lia|]. split.
        -- constructor; [apply Qcle_refl | exact Hall].
        -- intros q Hq. lia.
      * exists (S p). split; [lia|]. cbn [nth].
        split; [eapply Qclt_trans; eassumption|].
        split; [cbn; lia|]. split.
        -- constructor; [apply Qclt_le_weak, Hp | exact Hmin].
        -- intros [|q] Hq; cbn [nth]; [exact Hp | apply Hfst; lia].
    + apply ltb_ge in E.
      destruct (IH (S i) best m)
        as [[-> Hall] | (p & -> & Hp & Hlt & Hmin & Hfst)].
      * left. split; [reflexivity|]. constructor; assumption.
      * right. exists (S p). split; [lia|]. cbn [nth].
        split; [exact Hp|].
        assert (nth p l 0 < x) by (eapply Qclt_le_trans; eassumption).
        split; [cbn; lia|]. split.
        -- constructor; [now apply Qclt_le_weak | exact Hmin].
        -- intros [|q] Hq; cbn [nth]; [assumption | apply Hfst; lia].
Qed.

Lemma argmin_spec (l : list Qc) :
  l <> [] -> exists i, argmin l = Some i /\ first_least l i.
Proof.
  destruct l as [|x l]; [congruence|]. intros _. cbn [argmin].
  destruct (argmin_from_spec l 1 0 x)
    as [[-> Hall] | (p & -> & Hp & Hlt & Hmin & Hfst)].
  - exists 0%nat. split; [reflexivity|]. split; [cbn; lia|]. split.
    + constructor; [apply Qcle_refl | exact Hall].
    + intros q Hq. lia.
  - exists (S p). split; [reflexivity|]. split; [cbn; lia|]. cbn [nth]. split.
    + constructor; [now apply Qclt_le_weak | exact Hmin].
    + intros [|q] Hq; cbn [nth]; [exact Hp | apply Hfst; lia].
Qed.

Lemma argmin_rows_map {X} (f : X -> list Qc) (l : list X) :
  (forall x, f x <> []) ->
  exists g, argmin_rows (map f l) = Some (map g l) /\
            forall x, argmin (f x) = Some (g x).
Proof.
  intros Hf.
  exists (fun x => match argmin (f x) with Some i => i | None => 0%nat end).
  assert (G : forall x, argmin (f x) =
                        Some (match argmin (f x) with
                              | Some i => i | None => 0%nat end)).
  { intros x. destruct (argmin_spec (Hf x)) as (i & -> & _). reflexivity. }
  split; [|exact G].
  induction l as [|x l IH]; [reflexivity|].
  cbn [map argmin_rows]. rewrite IH. now rewrite (G x) at 1.
Qed.

(** C6, without rounding: over the rationals, a query row equal to
    codebook entry [j] is assigned an index [i] whose entry is that row;
    [i] is the lowest such index (no entry before it equals the row), so
    [i <= j], and [i = j] when the entries are pairwise distinct. *)
Theorem quantize_exact_entry (self : @Self Qc Qc) (encode_feat : list (list Qc))
  (r j : nat) (x : list Qc) :
  length (codebook self) = token_class_num self ->
  Forall (fun c => length c = token_dim self) (codebook self) ->
  nth_error encode_feat r = Some x ->
  nth_error (codebook self) j = Some x ->
  exists idx i,
    quantize self encode_feat = Ok idx /\
    nth_error idx r = Some i /\
    nth_error (codebook self) i = Some x /\
    (i <= j)%nat /\
    (forall q, (q < i)%nat -> nth_error (codebook self) q <> Some x) /\
    (NoDup (codebook self) -> i = j).
Proof.
  intros Hk Hd Hr Hj. unfold quantize.
  change (@t_arith Qc Qc numerics) with arith.
  rewrite <- Hk, distances_rows by exact Hd.
  set (cb := codebook self) in *.
  assert (Hjlt : (j < length cb)%nat) by (apply nth_error_Some; congruence).
  destruct (argmin_rows_map (fun row => map (expansion row) cb) encode_feat)
    as (g & -> & Hg).
  { intros row E. apply (f_equal (@length Qc)) in E.
    rewrite length_map in E. cbn in E. lia. }
  exists (map g encode_feat), (g x). split; [reflexivity|].
  split; [now rewrite nth_error_map, Hr|].
  destruct (argmin_spec (l := map (expansion x) cb))
    as (i & Hi & Hlt & Hmin & Hfst).
  { intros E. apply (f_equal (@length Qc)) in E.
    rewrite length_map in E. cbn in E. lia. }
  rewrite Hg in Hi. inversion Hi as [Hgi]. clear Hi.
  rewrite length_map in Hlt.
  assert (Hlen : forall c, In c cb -> length x = length c).
  { intros c Hc. rewrite Forall_forall in Hd.
    rewrite (Hd c Hc). apply Hd. eapply nth_error_In, Hj. }
  assert (Hval : forall q, (q < length cb)%nat ->
                 nth q (map (expansion x) cb) 0 = sqdist x (nth q cb [])).
  { intros q Hq.
    rewrite nth_indep with (d' := expansion x [])
      by (now rewrite length_map).
    rewrite map_nth. apply expansion_sqdist, Hlen, nth_In, Hq. }
  assert (Hxj : nth j cb [] = x) by (now apply nth_error_nth).
  assert (Hzero : sqdist x (nth i cb []) = 0).
  { rewrite Forall_forall in Hmin.
    assert (Hij : nth i (map (expansion x) cb) 0
                  <= nth j (map (expansion x) cb) 0)
      by (apply Hmin, nth_In; now rewrite length_map).
    rewrite !Hval in Hij by assumption.
    rewrite Hxj, sqdist_refl in Hij.
    apply Qcle_antisym; [exact Hij | apply sqdist_nonneg]. }
  assert (Hxi : nth i cb [] = x).
  { symmetry. apply sqdist_zero; [|exact Hzero]. apply Hlen, nth_In, Hlt. }
  assert (Hfirst : forall q, (q < i)%nat -> nth q cb [] <> x).
  { intros q Hq E. specialize (Hfst q Hq).
    rewrite !Hval in Hfst by lia.
    rewrite E, Hxi, sqdist_refl in Hfst.
    exact (Qclt_not_le _ _ Hfst (Qcle_refl 0)). }
  rewrite Hgi. split; [|split; [|split]].
  - rewrite nth_error_nth' with (d := []) by exact Hlt. now rewrite Hxi.
  - destruct (Nat.le_gt_cases i j) as [H|H]; [exact H|].
    exfalso. exact (Hfirst j H Hxj).
  - intros q Hq E. apply (Hfirst q Hq). now apply nth_error_nth.
  - intros Hnd. rewrite (NoDup_nth cb []) in Hnd.
    apply Hnd; [exact Hlt | exact Hjlt | congruence].
Qed.


(** *** Masked joints *)





Lemma blend_joint_agree (tok f1 f2 : list Qc) (v : bool) :
  feat_agree f1 f2 v -> blend_joint tok f1 v = blend_joint tok f2 v.
Proof.
  intros [Hlen Heq]. destruct v; [now rewrite Heq|]. clear Heq.
  unfold blend_joint, of_bool. cbn [f_mul f_add f_sub f_one f_zero arith].
  revert f2 tok Hlen.
  induction f1 as [|a f1 IH]; intros [|b f2] tok Hlen; try discriminate;
    [reflexivity|].
  destruct tok as [|m tok]; cbn [map2]; [reflexivity|].
  f_equal; [ring | apply IH; cbn in Hlen; congruence].
Qed.

(** Over the rationals the features of a joint with flag 0 do not reach
    the encoder at all: two calls on one module with the same draws, whose
    poses differ only in the coordinates of such joints, give the same
    encoder features and the same outcome of [forward]. *)
Lemma invisible_noninterference_exact (self : @Self Qc Qc)
  joints1 joints2 jf cls train rand world :
  Forall2 (Forall2 same_unless_invisible) joints1 joints2 ->
  encode self joints1 jf train rand = encode self joints2 jf train rand /\
  forward (Some joints1) jf cls train rand world self
  = forward (Some joints2) jf cls train rand world self.
Proof.
  intros H.
  assert (E : encode self joints1 jf train rand
              = encode self joints2 jf train rand).
  { apply encode_agree with (R := feat_agree).
    - intros f1 f2 v. apply blend_joint_agree.
    - intros f1 f2 v r [Hlen Heq]. split; [exact Hlen|].
      intros Hv. apply andb_true_iff in Hv. now apply Heq.
    - now apply visible_same.
    - now apply embed_agree. }
  split; [exact E|].
  apply forward_of_encode; [|exact E].
  pose proof (Forall2_length H) as L. exact L.
Qed.

End ExactFacts.

(** ** binary32: where rounding and overflow show *)

Module Binary32Facts.

Import IEEE Binary32Spec Net32.

(** *** The blend of a hidden joint *)

Lemma blend_hidden_entry (a b v : binary32) :
  is_finite a = true -> is_finite b = true -> v <> S754_zero true ->
  SFadd 24 128 (SFmul 24 128 a (S754_zero false)) v
  = SFadd 24 128 (SFmul 24 128 b (S754_zero false)) v.
Proof.
  intros Ha Hb Hv.
  destruct a as [sa| | |sa ma ea], b as [sb| | |sb mb eb];
    try discriminate; cbn [SFmul];
    destruct v as [[|]| | |]; try congruence;
    destruct sa, sb; reflexivity.
Qed.

Lemma blend_joint_hidden (tok f1 f2 : @vec binary32) :
  no_negative_zero tok ->
  length f1 = length f2 ->
  Forall (fun x => is_finite x = true) f1 ->
  Forall (fun x => is_finite x = true) f2 ->
  blend_joint tok f1 false = blend_joint tok f2 false.
Proof.
  unfold blend_joint, of_bool, no_negative_zero.
  intros Htok Hlen H1. revert f2 tok Htok Hlen.
  induction H1 as [|a f1 Ha _ IH]; intros [|b f2] tok Htok Hlen H2;
    try discriminate; [reflexivity|].
  destruct tok as [|m tok]; cbn [map2]; [reflexivity|].
  inversion H2 as [|? ? Hb H2']; subst.
  inversion Htok as [|? ? Hm Htok']; subst.
  f_equal.
  - apply blend_hidden_entry; assumption.
  - apply IH; [exact Htok' | cbn in Hlen; congruence | exact H2'].
Qed.

Lemma blend_joint_alike (tok f1 f2 : @vec binary32) (v : bool) :
  no_negative_zero tok -> blend_alike f1 f2 v ->
  blend_joint tok f1 v = blend_joint tok f2 v.
Proof.
  intros Htok [->|(-> & Hlen & H1 & H2)]; [reflexivity|].
  now apply blend_joint_hidden.
Qed.

Lemma blend_alike_mask (f1 f2 : @vec binary32) (v r : bool) :
  blend_alike f1 f2 v -> blend_alike f1 f2 (r && v).
Proof.
  intros [E|(-> & H)]; [now left | right].
  rewrite andb_false_r. now split.
Qed.

Lemma blend_alike_of (f1 f2 : @vec binary32) (v : bool) :
  feat_agree f1 f2 v ->
  (v = false -> Forall (fun x => is_finite x = true) f1) ->
  (v = false -> Forall (fun x => is_finite x = true) f2) ->
  blend_alike f1 f2 v.
Proof.
  intros [Hlen Heq] H1 H2. destruct v; [left; now apply Heq | right].
  repeat split; auto.
Qed.

(** C8, as binary32 has it: two calls on one module with the same draws,
    whose poses differ only in the coordinates of joints with flag 0,
    give the same encoder features and the same outcome of [forward],
    provided the embedded features of those joints are finite in both
    calls and the mask token contributes no negative zero. *)
Theorem invisible_noninterference_binary32
  (self : @Self binary64 binary32) joints1 joints2 jf cls train rand world :
  Forall2 (Forall2 same_unless_invisible) joints1 joints2 ->
  embedding_finite_where_hidden self joints1 jf ->
  embedding_finite_where_hidden self joints2 jf ->
  no_negative_zero (invisible_token self) ->
  encode self joints1 jf train rand = encode self joints2 jf train rand /\
  forward (Some joints1) jf cls train rand world self
  = forward (Some joints2) jf cls train rand world self.
Proof.
  intros H F1 F2 Htok.
  pose proof (visible_same H) as Hv.
  assert (E : encode self joints1 jf train rand
              = encode self joints2 jf train rand).
  { apply encode_agree with (R := blend_alike).
    - intros f1 f2 v. now apply blend_joint_alike.
    - apply blend_alike_mask.
    - exact Hv.
    - pose proof (embed_agree self jf H) as G.
      unfold embedding_finite_where_hidden in F1, F2.
      rewrite <- Hv in F2.
      destruct (embed self (joints_coord_of joints1) jf) as [e1|x1],
               (embed self (joints_coord_of joints2) jf) as [e2|x2];
        try exact G.
      unfold hidden_finite in F1, F2.
      refine (@agree_combine _ _ (agree feat_agree) _ _ _ _ _ _ _ G F1 F2).
      intros r1 r2 vs Hr Fr1 Fr2. cbn [fst snd] in Fr1, Fr2.
      refine (@agree_combine _ _ feat_agree _ _ _ _ _ _ _ Hr Fr1 Fr2).
      intros f1 f2 v Hf. cbn [fst snd]. now apply blend_alike_of. }
  split; [exact E|].
  apply forward_of_encode; [|exact E].
  exact (Forall2_length H).
Qed.

(** *** The theorems at the small module *)

Lemma forward_loss_iff_witness :
  exists out,
    forward (Some joints) None None true rand (Some []) (tiny "tokenizer")
    = (Ok out,
       snd (forward (Some joints) None None true rand (Some [])
                    (tiny "tokenizer"))) /\
    (e_latent_loss out <> None <->
     true = true /\ stage_pct (tiny "tokenizer") = "tokenizer").
Proof.
  let r := eval vm_compute in
    (fst (forward (Some joints) None None true rand (Some [])
                  (tiny "tokenizer"))) in
  match r with
  | Ok ?o =>
      assert (F : fst (forward (Some joints) None None true rand (Some [])
                               (tiny "tokenizer")) = Ok o)
        by (vm_compute; reflexivity);
      exists o
  end.
  assert (E : forall (A B : Type) (p : A * B) (a : A),
            fst p = a -> p = (a, snd p))
    by (intros A B [a0 b0] a; cbn; congruence).
  apply E in F. split; [exact F|].
  apply forward_loss_iff in F. exact F.
Defined.

(** C2 fails in classifier stage with [train] true: the call returns the
    indices of the encoder path. *)
Lemma classifier_train_returns_indices :
  stage_pct (tiny "classifier") = "classifier" /\
  exists out,
    fst (forward (Some joints) None (Some cls_logits) true rand None
                 (tiny "classifier")) = Ok out /\
    encoding_indices out = Some [0%nat].
Proof.
  split; [reflexivity|].
  let r := eval vm_compute in
    (fst (forward (Some joints) None (Some cls_logits) true rand None
                  (tiny "classifier"))) in
  match r with
  | Ok ?o => exists o; split; [vm_compute; reflexivity | reflexivity]
  end.
Qed.

Lemma forward_indices_none_iff_witness :
  exists out,
    forward None None (Some cls_logits) false rand None (tiny "classifier")
    = (Ok out,
       snd (forward None None (Some cls_logits) false rand None
                    (tiny "classifier"))) /\
    (encoding_indices out = None <->
     false = false /\ stage_pct (tiny "classifier") <> "tokenizer").
Proof.
  let r := eval vm_compute in
    (fst (forward None None (Some cls_logits) false rand None
                  (tiny "classifier"))) in
  match r with
  | Ok ?o =>
      assert (F : fst (forward None None (Some cls_logits) false rand None
                               (tiny "classifier")) = Ok o)
        by (vm_compute; reflexivity);
      exists o
  end.
  assert (E : forall (A B : Type) (p : A * B) (a : A),
            fst p = a -> p = (a, snd p))
    by (intros A B [a0 b0] a; cbn; congruence).
  apply E in F. split; [exact F|].
  apply forward_indices_none_iff in F. exact F.
Defined.

Lemma forward_buffers_frame_witness :
  ~ (true = true /\ stage_pct (tiny "classifier") = "tokenizer") /\
  let self' :=
    snd (forward (Some joints) None (Some cls_logits) true rand (Some [])
                 (tiny "classifier")) in
  self' = tiny "classifier" /\
  codebook self' = codebook (tiny "classifier") /\
  ema_cluster_size self' = ema_cluster_size (tiny "classifier") /\
  ema_w self' = ema_w (tiny "classifier").
Proof.
  split.
  - intros [_ H]. discriminate H.
  - apply forward_buffers_frame. intros [_ H]. discriminate H.
Defined.

Lemma joints_hidden_a_c :
  Forall2 (Forall2 same_unless_invisible) joints_hidden_a joints_hidden_c.
Proof.
  repeat constructor; intros H; try reflexivity;
    vm_compute in H; discriminate H.
Defined.

Lemma invisible_noninterference_binary32_witness :
  Forall2 (Forall2 same_unless_invisible) joints_hidden_a joints_hidden_c /\
  embedding_finite_where_hidden (tiny "tokenizer") joints_hidden_a None /\
  embedding_finite_where_hidden (tiny "tokenizer") joints_hidden_c None /\
  no_negative_zero (invisible_token (tiny "tokenizer")) /\
  encode (tiny "tokenizer") joints_hidden_a None true rand
  = encode (tiny "tokenizer") joints_hidden_c None true rand /\
  forward (Some joints_hidden_a) None None true rand (Some [])
          (tiny "tokenizer")
  = forward (Some joints_hidden_c) None None true rand (Some [])
            (tiny "tokenizer").
Proof.
  assert (Fa : embedding_finite_where_hidden (tiny "tokenizer")
                 joints_hidden_a None).
  { vm_compute. repeat constructor; intros H; try discriminate H;
      repeat constructor. }
  assert (Fc : embedding_finite_where_hidden (tiny "tokenizer")
                 joints_hidden_c None).
  { vm_compute. repeat constructor; intros H; try discriminate H;
      repeat constructor. }
  assert (Ht : no_negative_zero (invisible_token (tiny "tokenizer"))).
  { repeat constructor; intros H; vm_compute in H; discriminate H. }
  split; [exact joints_hidden_a_c|].
  split; [exact Fa|]. split; [exact Fc|]. split; [exact Ht|].
  exact (invisible_noninterference_binary32 (tiny "tokenizer") None None
           true rand (Some []) joints_hidden_a_c Fa Fc Ht).
Defined.

(** *** What fails *)

(** C5 fails in binary32: the sizes [1, 8] add up to 9 before the
    renormalization and to [9437183 * 2^-20], one unit in the last place
    less, after it. *)
Lemma renormalize_mass_binary32 :
  Forall (fun s => SFleb (S754_zero false) s = true) [z32 1; z32 8] /\
  vsum [z32 1; z32 8] = S754_finite false 9437184 (-20) /\
  vsum (renormalize 2 [z32 1; z32 8]) = S754_finite false 9437183 (-20) /\
  SFeqb (vsum (renormalize 2 [z32 1; z32 8])) (vsum [z32 1; z32 8]) = false.
Proof.
  split; [repeat constructor|].
  repeat split; vm_compute; reflexivity.
Qed.

(** C6 fails in binary32: the query 1 equals entry 1 of the codebook
    [1 + 2^-23, 1]; the expansion gives 0 for both entries, and the
    argmin takes index 0, whose entry is not the query. *)
Lemma quantize_near_entry_binary32 :
  nth_error (codebook near_codebook) 1 = Some [z32 1] /\
  nth_error (codebook near_codebook) 0 <> Some [z32 1] /\
  NoDup (codebook near_codebook) /\
  distances 2 1 [[z32 1]] (codebook near_codebook)
  = [[S754_zero false; S754_zero false]] /\
  quantize near_codebook [[z32 1]] = Ok [0%nat].
Proof.
  split; [reflexivity|]. split; [discriminate|]. split.
  - repeat constructor; cbn; intuition discriminate.
  - split; vm_compute; reflexivity.
Qed.

(** C7 fails in binary32: for [continuous = 1e8] and [quantized = 1] the
    difference rounds to [-1e8] and the straight-through value is 0. *)
Lemma straight_through_binary32 :
  straight_through [[z32 100000000]] [[z32 1]] = [[S754_zero false]] /\
  straight_through [[z32 100000000]] [[z32 1]] <> [[z32 1]].
Proof.
  split; [vm_compute; reflexivity|].
  vm_compute. discriminate.
Qed.

(** C8 fails in binary32: the two poses differ in the coordinates of an
    invisible joint only; the embedding of the second overflows to an
    infinity, which times the mask weight 0 is a NaN, and the NaN reaches
    the encoder features and the outputs of [forward]. *)
Lemma invisible_overflow_binary32 :
  Forall2 (Forall2 same_unless_invisible) joints_hidden_a joints_hidden_b /\
  encode (tiny "tokenizer") joints_hidden_a None false rand
  = Ok [[S754_finite false 16777179 (-24)]] /\
  encode (tiny "tokenizer") joints_hidden_b None false rand
  = Ok [[S754_nan]] /\
  fst (forward (Some joints_hidden_a) None None true rand (Some [])
               (tiny "tokenizer"))
  <> fst (forward (Some joints_hidden_b) None None true rand (Some [])
                  (tiny "tokenizer")).
Proof.
  split.
  - repeat constructor; intros H; try reflexivity;
      vm_compute in H; discriminate H.
  - split; [vm_compute; reflexivity|].
    split; [vm_compute; reflexivity|].
    vm_compute. discriminate.
Qed.

(** C10 fails in binary32: with both old cluster sizes at the largest
    finite number their sum overflows to an infinity, and the
    renormalized sizes are NaNs, which are not positive. *)
Lemma ema_cluster_size_overflow_binary32 :
  SFltb (S754_zero false) (decay large_sizes) = true /\
  SFltb (decay large_sizes) (@f_one _ arith64) = true /\
  Forall (fun s => SFleb (S754_zero false) s = true)
         (ema_cluster_size large_sizes) /\
  ema_cluster_size
    (ema_update large_sizes (encodings_of 2 [0%nat]) [[z32 0]; [z32 0]])
  = [S754_nan; S754_nan] /\
  Forall (fun s => SFltb (S754_zero false) s = false)
    (ema_cluster_size
       (ema_update large_sizes (encodings_of 2 [0%nat])
                   [[z32 0]; [z32 0]])).
Proof.
  split; [reflexivity|]. split; [reflexivity|].
  split; [repeat constructor|].
  split; [vm_compute; reflexivity|].
  vm_compute. repeat constructor.
Qed.

(** C9 fails for a path that is given but is no file: the tokenizer-stage
    call returns, without an assertion. *)
Lemma init_weights_missing_file :
  "tokenizer.pth" <> "" /\
  stage_pct (tiny "tokenizer") = "tokenizer" /\
  init_weights Disk.no_names Disk.no_names Disk.load_nothing
               (Disk.fs []) (tiny "tokenizer") "tokenizer.pth"
  = (Ok tt, tiny "tokenizer", []).
Proof.
  split; [discriminate|]. split; reflexivity.
Qed.

Lemma init_weights_guard_witness :
  init_weights Disk.no_names Disk.no_names Disk.load_nothing
               (Disk.fs ["tokenizer.pth"]) (tiny "tokenizer")
               "tokenizer.pth"
  = (Raise (AssertionError
              "Training tokenizer does not need to load model"),
     tiny "tokenizer", []) /\
  init_weights Disk.no_names Disk.no_names Disk.load_nothing
               (Disk.fs []) (tiny "tokenizer") ""
  = (Ok tt, tiny "tokenizer", []) /\
  init_weights Disk.no_names Disk.no_names Disk.load_nothing
               (Disk.fs []) (tiny "classifier") "tokenizer.pth"
  = (Ok tt, tiny "classifier", [classifier_warning]).
Proof.
  split; [|split].
  - exact (proj1 (init_weights_guard Disk.no_names Disk.no_names
                    Disk.load_nothing (Disk.fs ["tokenizer.pth"])
                    (tiny "tokenizer") "tokenizer.pth")
                 eq_refl eq_refl).
  - exact (proj1 (proj2 (init_weights_guard Disk.no_names Disk.no_names
                           Disk.load_nothing (Disk.fs [])
                           (tiny "tokenizer") ""))
                 eq_refl eq_refl).
  - exact (proj2 (proj2 (init_weights_guard Disk.no_names Disk.no_names
                           Disk.load_nothing (Disk.fs [])
                           (tiny "classifier") "tokenizer.pth"))
                 eq_refl eq_refl).
Defined.
End Binary32Facts.

(** ** The rational theorems at the small module *)

Module ExactWitnesses.

Import Exact ExactSpec ExactFacts NetQ.
Local Open Scope Qc_scope.

Lemma renormalize_mass_exact_witness :
  length [1; q 8 1] = 2%nat /\
  Forall (fun x => 0 <= x) [1; q 8 1] /\
  vsum (renormalize 2 [1; q 8 1]) = vsum [1; q 8 1].
Proof.
  assert (H : Forall (fun x => 0 <= x) [1; q 8 1])
    by (repeat constructor; discriminate).
  split; [reflexivity|]. split; [exact H|].
  apply renormalize_mass_exact; [reflexivity | exact H].
Defined.

Lemma quantize_exact_entry_witness :
  exists idx i,
    quantize (tiny "tokenizer") [[q (-2) 1]] = Ok idx /\
    nth_error idx 0 = Some i /\
    nth_error (codebook (tiny "tokenizer")) i = Some [q (-2) 1] /\
    (i <= 1)%nat /\
    (forall p, (p < i)%nat ->
               nth_error (codebook (tiny "tokenizer")) p
               <> Some [q (-2) 1]) /\
    (NoDup (codebook (tiny "tokenizer")) -> i = 1%nat).
Proof.
  apply (quantize_exact_entry (tiny "tokenizer") [[q (-2) 1]] 0 1).
  - reflexivity.
  - repeat constructor.
  - reflexivity.
  - reflexivity.
Defined.

Lemma straight_through_exact_witness :
  Forall2 (fun c q => length c = length q)
          [[q 100000000 1]] [[1]] /\
  straight_through [[q 100000000 1]] [[1]] = [[1]].
Proof.
  assert (H : Forall2 (fun c q : list Qc => length c = length q)
                      [[q 100000000 1]] [[1]])
    by (repeat constructor).
  split; [exact H | exact (straight_through_exact H)].
Defined.

Lemma ema_cluster_size_positive_exact_witness :
  0 < decay (tiny "tokenizer") /\ decay (tiny "tokenizer") < 1 /\
  let self' :=
    ema_update (tiny "tokenizer") (encodings_of 2 [0%nat]) [[0]; [0]] in
  length (ema_cluster_size self') = 2%nat /\
  Forall (fun s => 0 < s) (ema_cluster_size self').
Proof.
  assert (H0 : 0 < decay (tiny "tokenizer")) by reflexivity.
  assert (H1 : decay (tiny "tokenizer") < 1) by reflexivity.
  split; [exact H0|]. split; [exact H1|].
  apply ema_cluster_size_positive_exact.
  - exact H0.
  - exact H1.
  - discriminate.
  - repeat constructor.
  - reflexivity.
  - repeat constructor; discriminate.
Defined.

End ExactWitnesses.

(** * More of [forward] *)

Section ForwardFacts.

Context {P T : Type} {N : Numerics P T}.

Implicit Types (self : @Self P T).

(** ** The state a call leaves *)

Lemma ema_stage_state self train world ef enc ptf s :
  snd (ema_stage self train world ef enc ptf self) = s ->
  s = self \/
  exists sync_encodings sync_dw, s = ema_update self sync_encodings sync_dw.
Proof.
  unfold ema_stage.
  destruct (train && is_tokenizer self); [|now left].
  destruct enc as [encodings|]; cbn; [|now left].
  destruct ef as [encode_feat|]; cbn; [|now left].
  destruct (all_reduce world _) as [combined|]; cbn; [|now left].
  intros <-. right. eauto.
Qed.

Lemma forward_state_of joints jf cls train rand world self s :
  snd (forward joints jf cls train rand world self) = s ->
  s = self \/
  exists sync_encodings sync_dw, s = ema_update self sync_encodings sync_dw.
Proof.
  unfold forward, PyM.bind, PyM.get at 1.
  pose proof (encoder_stage_state self joints jf cls train rand self) as E1.
  destruct (encoder_stage self joints jf cls train rand self)
    as [[[[[bs ef] idx] enc]|e] s1]; cbn in E1; subst s1; [|now left].
  pose proof (lookup_stage_state self cls enc self) as E2.
  destruct (lookup_stage self cls enc self) as [[ptf|e] s2];
    cbn in E2; subst s2; [|now left].
  pose proof (@ema_stage_state self train world ef enc ptf) as E3.
  destruct (ema_stage self train world ef enc ptf self)
    as [[[l p]|e] s3]; cbn [snd] in *; [|exact (E3 s)].
  unfold PyM.lift, PyM.get, PyM.ret.
  destruct (view_batches bs p); cbn [snd]; intros <-; exact (E3 _ eq_refl).
Qed.

(** Whatever the outcome, [forward] leaves the module as it was or as one
    EMA step made it. *)
Lemma forward_state joints jf cls train rand world self :
  snd (forward joints jf cls train rand world self) = self \/
  exists sync_encodings sync_dw,
    snd (forward joints jf cls train rand world self)
    = ema_update self sync_encodings sync_dw.
Proof. exact (forward_state_of _ _ _ _ _ _ _ eq_refl). Qed.

Lemma set_buffers_same self :
  set_buffers self (codebook self) (ema_cluster_size self) (ema_w self)
  = self.
Proof. destruct self; reflexivity. Qed.

(** X1: every call of [forward], returning or raising, changes at most the
    three buffers: the stage, the configuration, the token and every
    layer are afterwards what they were. *)
Theorem forward_writes_buffers_only joints jf cls train rand world self :
  exists cb cs w,
    snd (forward joints jf cls train rand world self)
    = set_buffers self cb cs w.
Proof.
  destruct (forward_state joints jf cls train rand world self)
    as [->|(se & sd & ->)].
  - exists (codebook self), (ema_cluster_size self), (ema_w self).
    symmetry. apply set_buffers_same.
  - unfold ema_update. eauto.
Qed.

Lemma decode_set_buffers self cb cs w x :
  decode (set_buffers self cb cs w) x = decode self x.
Proof. reflexivity. Qed.

(** X2: the joints a call returns are the decoder's image of the token
    features it returns: nothing else of the call reaches them. *)
Theorem forward_joints_of_features joints jf cls train rand world self
  out self' :
  forward joints jf cls train rand world self = (Ok out, self') ->
  recoverd_joints out = decode self (out_part_token_feat out).
Proof.
  intros H.
  pose proof (@forward_state_of joints jf cls train rand world self self')
    as E.
  rewrite H in E. specialize (E eq_refl).
  apply forward_inv in H
    as (bs & ef & enc & ptf & l & p & p3 & _ & _ & _ & _ & _ & Hp & Hr).
  rewrite Hr, Hp.
  destruct E as [->|(se & sd & ->)]; [reflexivity|].
  unfold ema_update. apply decode_set_buffers.
Qed.

(** ** Calls that cannot return *)

(** X3: with [train] false and a stage that is neither ["tokenizer"] nor
    ["classifier"] no call returns: the encoder is skipped, and line 213
    reads [encodings], which was never bound. *)
Theorem forward_unknown_stage joints jf cls rand world self :
  stage_pct self <> "tokenizer" -> stage_pct self <> "classifier" ->
  forward joints jf cls false rand world self
  = (Raise match cls with
           | None => AttributeError
           | Some c =>
               if (token_num self =? 0)%nat then ZeroDivisionError
               else UnboundLocalError "encodings"
           end,
     self).
Proof.
  intros Ht Hc.
  rewrite <- is_tokenizer_spec in Ht. rewrite <- is_classifier_spec in Hc.
  apply not_true_iff_false in Ht, Hc.
  unfold forward, PyM.bind, PyM.get at 1, encoder_stage, lookup_stage.
  cbn [orb]. rewrite Ht, Hc.
  destruct cls as [c|]; cbn; [|reflexivity].
  unfold floordiv, PyM.lift.
  destruct (token_num self =? 0)%nat; reflexivity.
Qed.

(** X4: a training call in tokenizer stage made before a process group is
    initialised never returns, and it leaves the buffers as they were:
    [dist.all_reduce] raises before line 227. *)
Theorem forward_without_process_group joints jf cls rand self :
  stage_pct self = "tokenizer" ->
  (exists e, fst (forward joints jf cls true rand None self) = Raise e) /\
  snd (forward joints jf cls true rand None self) = self.
Proof.
  intros Hs. apply is_tokenizer_spec in Hs.
  unfold forward, PyM.bind, PyM.get at 1 3.
  pose proof (encoder_stage_state self joints jf cls true rand self) as E1.
  destruct (encoder_stage self joints jf cls true rand self)
    as [[[[[bs ef] idx] enc]|e] s1]; cbn in E1; subst s1;
    [|split; [eexists; reflexivity | reflexivity]].
  pose proof (lookup_stage_state self cls enc self) as E2.
  destruct (lookup_stage self cls enc self) as [[ptf|e] s2];
    cbn in E2; subst s2; [|split; [eexists; reflexivity | reflexivity]].
  unfold ema_stage. rewrite Hs. cbn [andb].
  destruct enc as [encodings|]; cbn; [|split; [eexists; reflexivity | reflexivity]].
  destruct ef as [encode_feat|]; cbn;
    (split; [eexists; reflexivity | reflexivity]).
Qed.

(** ** What a call does not read *)

(** X5: the random draws and the process group are read only by a
    training call in tokenizer stage: every other call has the same
    outcome whatever they are. *)
Theorem forward_draws_only_in_training joints jf cls train rand1 rand2
  world1 world2 self :
  ~ (train = true /\ stage_pct self = "tokenizer") ->
  forward joints jf cls train rand1 world1 self
  = forward joints jf cls train rand2 world2 self.
Proof.
  intros G.
  assert (G' : train && is_tokenizer self = false).
  { apply not_true_iff_false. rewrite andb_true_iff, is_tokenizer_spec.
    exact G. }
  unfold forward, PyM.bind, PyM.get at 1 3, encoder_stage, encode,
    visible_mask, ema_stage.
  rewrite G'. reflexivity.
Qed.

(** X6: a call that runs the encoder ([train] true, or tokenizer stage)
    without joints raises at line 168, before anything is computed or
    written. *)
Theorem forward_needs_joints jf cls train rand world self :
  train = true \/ stage_pct self = "tokenizer" ->
  forward None jf cls train rand world self = (Raise AttributeError, self).
Proof.
  intros G.
  assert (G' : train || is_tokenizer self = true).
  { apply orb_true_iff. rewrite is_tokenizer_spec. exact G. }
  unfold forward, PyM.bind, PyM.get at 1, encoder_stage.
  rewrite G'. reflexivity.
Qed.

(** X7: in classifier stage with [train] false a call reads neither the
    joints nor the guidance features. *)
Theorem forward_classifier_eval_ignores_joints joints1 joints2 jf1 jf2 cls
  rand1 rand2 world1 world2 self :
  stage_pct self = "classifier" ->
  forward joints1 jf1 cls false rand1 world1 self
  = forward joints2 jf2 cls false rand2 world2 self.
Proof.
  intros Hs.
  assert (Ht : is_tokenizer self = false).
  { unfold is_tokenizer. rewrite Hs. reflexivity. }
  unfold forward, PyM.bind, PyM.get at 1 3, encoder_stage.
  cbn [orb]. rewrite Ht. reflexivity.
Qed.

(** X8: in tokenizer stage a call does not read [cls_logits]. *)
Theorem forward_tokenizer_ignores_logits joints jf cls1 cls2 train rand world
  self :
  stage_pct self = "tokenizer" ->
  forward joints jf cls1 train rand world self
  = forward joints jf cls2 train rand world self.
Proof.
  intros Hs.
  assert (Ht : is_tokenizer self = true) by now apply is_tokenizer_spec.
  assert (Hc : is_classifier self = false).
  { unfold is_classifier. rewrite Hs. reflexivity. }
  unfold forward, PyM.bind, PyM.get at 1 3, encoder_stage, lookup_stage.
  rewrite Ht, Hc, orb_true_r. reflexivity.
Qed.

End ForwardFacts.

(** ** Shapes *)

Lemma concat_length_rows {X} (cols : nat) (m : list (list X)) :
  Forall (fun r => length r = cols) m ->
  length (concat m) = (length m * cols)%nat.
Proof.
  induction 1 as [|r m Hr _ IH]; cbn; [reflexivity|].
  rewrite length_app, IH, Hr. reflexivity.
Qed.

Section Shapes.

Context {T : Type} {A : Arith T}.

Lemma unflatten_flatten (rows cols : nat) (m : @mat T) :
  has_shape rows cols m -> unflatten rows cols (flatten m) = m.
Proof.
  unfold unflatten, flatten. intros [Hl Hm]. revert rows Hl.
  induction Hm as [|r m Hr _ IH]; intros rows Hl; cbn in Hl; subst rows;
    [reflexivity|].
  cbn [length seq map concat]. f_equal.
  - cbn. rewrite firstn_app, Hr, Nat.sub_diag, firstn_O, app_nil_r.
    rewrite <- Hr. apply firstn_all.
  - rewrite <- seq_shift, map_map. rewrite <- (IH (length m) eq_refl) at 2.
    apply map_ext. intros i.
    replace (S i * cols)%nat with (length r + i * cols)%nat by (cbn; lia).
    rewrite skipn_app.
    rewrite skipn_all2 by lia.
    replace (length r + i * cols - length r)%nat with (i * cols)%nat by lia.
    reflexivity.
Qed.

Lemma unflatten_shape (rows cols : nat) (flat : @vec T) :
  length flat = (rows * cols)%nat ->
  has_shape rows cols (unflatten rows cols flat).
Proof.
  intros Hl. unfold has_shape, unflatten. split.
  - now rewrite length_map, length_seq.
  - apply Forall_forall. intros r Hr.
    apply in_map_iff in Hr as (i & <- & Hi). apply in_seq in Hi.
    rewrite length_firstn, length_skipn, Hl. nia.
Qed.

Lemma matmul_shape (p : nat) (a b : @mat T) :
  has_shape (length a) p (matmul p a b).
Proof.
  unfold has_shape, matmul. split; [apply length_map|].
  apply Forall_forall. intros r Hr. apply in_map_iff in Hr as (x & <- & _).
  now rewrite length_map, length_seq.
Qed.

Lemma transpose_length (cols : nat) (m : @mat T) :
  length (transpose cols m) = cols.
Proof. unfold transpose. now rewrite length_map, length_seq. Qed.

Lemma encodings_shape (k : nat) (idx : list nat) :
  has_shape (length idx) k (encodings_of k idx).
Proof.
  unfold has_shape, encodings_of. split; [apply length_map|].
  apply Forall_forall. intros r Hr. apply in_map_iff in Hr as (i & <- & _).
  unfold one_hot. now rewrite length_map, length_seq.
Qed.

Lemma flatten_length (rows cols : nat) (m : @mat T) :
  has_shape rows cols m -> length (flatten m) = (rows * cols)%nat.
Proof.
  intros [<- Hm]. unfold flatten. now apply concat_length_rows.
Qed.

(** What [torch.split] and [view] give back from
    [torch.cat((encodings.flatten(), dw.flatten()))]. *)
Lemma payload_round_trip (n k d : nat) (encodings dw : @mat T) :
  has_shape n k encodings -> has_shape k d dw ->
  let combined := flatten encodings ++ flatten dw in
  let n_encodings := length (flatten encodings) in
  unflatten n k (firstn n_encodings combined) = encodings /\
  unflatten k d (skipn n_encodings combined) = dw.
Proof.
  intros He Hd. cbn zeta. split.
  - rewrite firstn_app, Nat.sub_diag, firstn_O, app_nil_r, firstn_all.
    now apply unflatten_flatten.
  - rewrite skipn_app, Nat.sub_diag, skipn_all. cbn [skipn app].
    now apply unflatten_flatten.
Qed.

(** *** [argmin] stays inside its row *)

Lemma argmin_from_lt (l : @vec T) (i best : nat) (m : T) :
  (best < i)%nat -> (argmin_from i best m l < i + length l)%nat.
Proof.
  revert i best m. induction l as [|x l IH]; intros i best m Hb; cbn.
  - lia.
  - destruct (precedes x m).
    + specialize (IH (S i) i x). lia.
    + specialize (IH (S i) best m). lia.
Qed.

Lemma argmin_lt (l : @vec T) (i : nat) :
  argmin l = Some i -> (i < length l)%nat.
Proof.
  destruct l as [|x l]; cbn; [discriminate|].
  intros H. injection H as <-.
  pose proof (@argmin_from_lt l 1 0 x). lia.
Qed.

Lemma argmin_rows_lt (d : @mat T) (idx : list nat) (k : nat) :
  Forall (fun row => (length row <= k)%nat) d ->
  argmin_rows d = Some idx ->
  length idx = length d /\ Forall (fun i => (i < k)%nat) idx.
Proof.
  intros Hd. revert idx.
  induction Hd as [|row d Hrow _ IH]; intros idx; cbn.
  - intros H. injection H as <-. split; [reflexivity | constructor].
  - destruct (argmin row) as [i|] eqn:Ei; [|discriminate].
    destruct (argmin_rows d) as [is'|]; [|discriminate].
    intros H. injection H as <-.
    destruct (IH is' eq_refl) as [Hl Hf].
    apply argmin_lt in Ei.
    split; [cbn; now rewrite Hl|]. constructor; [lia | exact Hf].
Qed.

Lemma sqnorms_length (m : @mat T) : length (sqnorms m) = length m.
Proof. apply length_map. Qed.

Lemma distances_width (k d : nat) (x cb : @mat T) :
  Forall (fun row => (length row <= Nat.min k (length cb))%nat)
         (distances k d x cb).
Proof.
  unfold distances.
  apply Forall_map2 with (PX := fun _ => True)
                         (PY := fun row => length row = k).
  - intros xx row _ Hrow. rewrite map2_length, sqnorms_length, Hrow. lia.
  - apply Forall_forall. intros; exact I.
  - apply (matmul_shape k x (transpose d cb)).
Qed.

Lemma distances_length (k d : nat) (x cb : @mat T) :
  length (distances k d x cb) = length x.
Proof.
  unfold distances.
  rewrite map2_length, sqnorms_length.
  destruct (matmul_shape k x (transpose d cb)) as [-> _]. lia.
Qed.

End Shapes.

Section ShapeFacts.

Context {P T : Type} {N : Numerics P T}.

Implicit Types (self : @Self P T).

Lemma quantize_inv self (x : @mat T) (idx : list nat) :
  quantize self x = Ok idx ->
  length idx = length x /\
  Forall (fun i => (i < token_class_num self)%nat
                   /\ (i < length (codebook self))%nat) idx.
Proof.
  unfold quantize.
  destruct (argmin_rows _) as [i|] eqn:E; [|discriminate].
  intros H. injection H as <-.
  eapply argmin_rows_lt in E; [|apply distances_width].
  rewrite distances_length in E. destruct E as [Hl Hf].
  split; [exact Hl|].
  eapply Forall_impl; [|exact Hf]. cbn. intros; lia.
Qed.

Lemma encoder_stage_on self joints jf cls train rand s bs ef idx enc s' :
  train || is_tokenizer self = true ->
  encoder_stage self joints jf cls train rand s
  = (Ok (bs, ef, idx, enc), s') ->
  exists js x i,
    joints = Some js /\
    encode self js jf train rand = Ok x /\
    quantize self x = Ok i /\
    bs = length js /\ ef = Some x /\ idx = Some i /\
    enc = Some (encodings_of (token_class_num self) i).
Proof.
  unfold encoder_stage. intros ->.
  destruct joints as [js|]; cbn; [|discriminate].
  destruct (encode self js jf train rand) as [x|] eqn:E; cbn;
    [|discriminate].
  destruct (quantize self x) as [i|] eqn:Q; cbn; [|discriminate].
  intros H. inversion H; subst. exists js, x, i.
  repeat split; try reflexivity; assumption.
Qed.

(** X9: every index a call returns names a row of the codebook: it is
    below [token_class_num] and below the number of codebook rows. *)
Theorem forward_indices_in_codebook joints jf cls train rand world self
  out self' idx :
  forward joints jf cls train rand world self = (Ok out, self') ->
  encoding_indices out = Some idx ->
  Forall (fun i => (i < token_class_num self)%nat
                   /\ (i < length (codebook self))%nat) idx.
Proof.
  intros H Hi.
  apply forward_inv in H as (bs & ef & enc & ptf & l & p & p3 & H1 & _).
  rewrite Hi in H1.
  destruct (train || is_tokenizer self) eqn:G.
  - apply encoder_stage_on in H1
      as (js & x & i & _ & _ & Q & _ & _ & E & _); [|exact G].
    injection E as ->. apply quantize_inv in Q. apply Q.
  - apply encoder_stage_indices in H1. apply H1 in G. discriminate.
Qed.

Lemma fold_add_length (peers : list (@vec T)) (t : @vec T) (n : nat) :
  length t = n ->
  forallb (fun p => (length p =? n)%nat) peers = true ->
  length (fold_left (map2 f_add) peers t) = n.
Proof.
  revert t. induction peers as [|p peers IH]; intros t Ht; cbn;
    [intros _; exact Ht|].
  intros H. apply andb_true_iff in H as [Hp Hps].
  apply Nat.eqb_eq in Hp.
  apply IH; [|exact Hps]. rewrite map2_length, Ht, Hp. lia.
Qed.

Lemma all_reduce_length (world : option (list (@vec T))) (t c : @vec T) :
  all_reduce world t = Ok c -> length c = length t.
Proof.
  unfold all_reduce. destruct world as [peers|]; [|discriminate].
  destruct (forallb (fun p => (length p =? length t)%nat) peers) eqn:E;
    [|discriminate].
  intros H. injection H as <-. now apply fold_add_length.
Qed.

Lemma has_shape_map2 {X Y} (f : X -> Y -> T) (rows cols : nat)
  (a : list (list X)) (b : list (list Y)) :
  length a = rows -> Forall (fun r => length r = cols) a ->
  length b = rows -> Forall (fun r => length r = cols) b ->
  has_shape rows cols (map2 (map2 f) a b).
Proof.
  intros La Fa Lb Fb. split.
  - rewrite map2_length. lia.
  - apply Forall_map2 with (PX := fun r => length r = cols)
                           (PY := fun r => length r = cols);
      [|exact Fa|exact Fb].
    intros x y Hx Hy. rewrite map2_length. lia.
Qed.

Lemma ema_update_shape self (sync_encodings sync_dw : @mat T) :
  well_shaped self ->
  has_shape (token_class_num self) (token_dim self) sync_dw ->
  well_shaped (ema_update self sync_encodings sync_dw).
Proof.
  intros (_ & Hs & [Lw Fw]) [Ld Fd].
  assert (W : has_shape (token_class_num self) (token_dim self)
                (map2 (map2 (ema self)) (ema_w self) sync_dw))
    by now apply has_shape_map2.
  assert (S : length (renormalize (token_class_num self)
                (map2 (ema self) (ema_cluster_size self)
                   (colsum (token_class_num self) sync_encodings)))
              = token_class_num self).
  { unfold renormalize, colsum.
    rewrite length_map, map2_length, length_map, length_seq. lia. }
  unfold well_shaped, ema_update. cbn.
  split; [|split; [exact S | exact W]].
  destruct W as [LW FW]. split.
  - rewrite map2_length. lia.
  - apply Forall_map2 with (PX := fun r => length r = token_dim self)
                           (PY := fun _ => True);
      [|exact FW|apply Forall_forall; intros; exact I].
    intros x y Hx _. now rewrite length_map.
Qed.

(** The module after a training call in tokenizer stage that got past
    [all_reduce]. *)
Lemma ema_stage_update self train world ef enc ptf s :
  snd (ema_stage self train world ef enc ptf self) = s ->
  s = self \/
  exists sync_encodings sync_dw,
    has_shape (token_class_num self) (token_dim self) sync_dw /\
    s = ema_update self sync_encodings sync_dw.
Proof.
  unfold ema_stage.
  destruct (train && is_tokenizer self); [|now left].
  destruct enc as [encodings|]; cbn; [|now left].
  destruct ef as [encode_feat|]; cbn; [|now left].
  destruct (all_reduce world _) as [combined|] eqn:R; cbn; [|now left].
  intros <-. right. eexists _, _. split; [|reflexivity].
  apply unflatten_shape.
  apply all_reduce_length in R.
  rewrite length_skipn, R, length_app.
  pose proof (matmul_shape (token_dim self)
                (transpose (token_class_num self) encodings)
                (detach encode_feat)) as M.
  rewrite transpose_length in M.
  rewrite (flatten_length M). lia.
Qed.

(** X10: well-shaped buffers stay well shaped: after any call of
    [forward], returning or raising, [codebook] and [ema_w] are
    [token_class_num x token_dim] and [ema_cluster_size] has
    [token_class_num] entries, whatever the batch and the other ranks
    sent. *)
Theorem forward_keeps_shapes joints jf cls train rand world self :
  well_shaped self ->
  well_shaped (snd (forward joints jf cls train rand world self)).
Proof.
  intros W.
  assert (E : snd (forward joints jf cls train rand world self) = self \/
              exists se sd,
                has_shape (token_class_num self) (token_dim self) sd /\
                snd (forward joints jf cls train rand world self)
                = ema_update self se sd).
  { generalize (eq_refl (snd (forward joints jf cls train rand world self))).
    generalize (snd (forward joints jf cls train rand world self)) at 2 3 4.
    intros s.
    unfold forward, PyM.bind, PyM.get at 1.
    pose proof (encoder_stage_state self joints jf cls train rand self)
      as E1.
    destruct (encoder_stage self joints jf cls train rand self)
      as [[[[[bs ef] idx] enc]|e] s1]; cbn in E1; subst s1;
      [|intros <-; now left].
    pose proof (lookup_stage_state self cls enc self) as E2.
    destruct (lookup_stage self cls enc self) as [[ptf|e] s2];
      cbn in E2; subst s2; [|intros <-; now left].
    pose proof (@ema_stage_update self train world ef enc ptf) as E3.
    destruct (ema_stage self train world ef enc ptf self)
      as [[[l p]|e] s3]; cbn [snd] in *; [|exact (E3 s)].
    unfold PyM.lift, PyM.get, PyM.ret.
    destruct (view_batches bs p); cbn [snd]; intros <-;
      exact (E3 _ eq_refl). }
  destruct E as [->|(se & sd & Hsd & ->)]; [exact W|].
  now apply ema_update_shape.
Qed.

End ShapeFacts.

(** ** The codebook after an EMA step *)

Section CodebookInvariant.

Context {P T : Type} {N : Numerics P T}.

Implicit Types (self : @Self P T).

Lemma ema_update_codebook self (sync_encodings sync_dw : @mat T) :
  well_shaped self ->
  has_shape (token_class_num self) (token_dim self) sync_dw ->
  codebook_invariant (ema_update self sync_encodings sync_dw).
Proof.
  intros W Hd c Hc.
  destruct (ema_update_shape sync_encodings W Hd) as (_ & Ls & [Lw Fw]).
  change (token_class_num (ema_update self sync_encodings sync_dw))
    with (token_class_num self) in *.
  change (token_dim (ema_update self sync_encodings sync_dw))
    with (token_dim self) in *.
  destruct (nth_error (ema_w (ema_update self sync_encodings sync_dw)) c)
    as [w|] eqn:Ew;
    [|apply nth_error_None in Ew; lia].
  destruct (nth_error
              (ema_cluster_size (ema_update self sync_encodings sync_dw)) c)
    as [size|] eqn:Es;
    [|apply nth_error_None in Es; lia].
  exists w, size. repeat split.
  - apply nth_error_In in Ew. rewrite Forall_forall in Fw. now apply Fw.
  - now apply ema_update_invariant.
Qed.

(** A training call in tokenizer stage raises before the EMA step, or
    makes it; what comes after the step does not write. *)
Lemma forward_training_outcome joints jf cls rand world self :
  is_tokenizer self = true ->
  (exists e,
     forward joints jf cls true rand world self = (Raise e, self)) \/
  exists sync_encodings sync_dw,
    has_shape (token_class_num self) (token_dim self) sync_dw /\
    snd (forward joints jf cls true rand world self)
    = ema_update self sync_encodings sync_dw.
Proof.
  intros Ht.
  pose proof (@ema_stage_update _ _ _ self true world) as U.
  unfold forward, PyM.bind, PyM.get at 1 3.
  pose proof (encoder_stage_state self joints jf cls true rand self) as E1.
  destruct (encoder_stage self joints jf cls true rand self)
    as [[[[[bs ef] idx] enc]|e] s1]; cbn in E1; subst s1;
    [|left; eauto].
  pose proof (lookup_stage_state self cls enc self) as E2.
  destruct (lookup_stage self cls enc self) as [[ptf|e] s2];
    cbn in E2; subst s2; [|left; eauto].
  specialize (U ef enc ptf). revert U. unfold ema_stage.
  cbn [andb]. rewrite Ht.
  destruct enc as [encodings|]; cbn; [|left; eauto].
  destruct ef as [encode_feat|]; cbn; [|left; eauto].
  destruct (all_reduce world _) as [combined|] eqn:R; cbn; [|left; eauto].
  intros U. right.
  destruct (U _ eq_refl) as [E|(se & sd & Hsd & E)].
  - eexists _, _. split; [|unfold PyM.lift, PyM.get, PyM.ret;
                           destruct (view_batches bs _); reflexivity].
    apply unflatten_shape.
    apply all_reduce_length in R.
    rewrite length_skipn, R, length_app.
    pose proof (matmul_shape (token_dim self)
                  (transpose (token_class_num self) encodings)
                  (detach encode_feat)) as M.
    rewrite transpose_length in M.
    rewrite (flatten_length M). lia.
  - exists se, sd. split; [exact Hsd|].
    unfold PyM.lift, PyM.get, PyM.ret.
    destruct (view_batches bs _); cbn [snd]; exact E.
Qed.

(** C4: on a module whose buffers have the shapes [__init__] gave them,
    a call of [forward] with [train] true in tokenizer stage either
    raises before the EMA step of lines 227-236, leaving the module as it
    was, or makes the step; after the step, whether the call goes on to
    return or to raise, every class [c] below [token_class_num] has a row
    in [ema_w] and a size in [ema_cluster_size], and [codebook[c]] is
    [ema_w[c] / ema_cluster_size[c]], element by element over the
    [token_dim] entries.  A call that returns has made the step. *)
Theorem forward_codebook_invariant joints jf cls rand world self :
  stage_pct self = "tokenizer" ->
  well_shaped self ->
  ((exists e,
      forward joints jf cls true rand world self = (Raise e, self)) \/
   codebook_invariant
     (snd (forward joints jf cls true rand world self))) /\
  (forall out,
     fst (forward joints jf cls true rand world self) = Ok out ->
     codebook_invariant
       (snd (forward joints jf cls true rand world self))).
Proof.
  intros Hs W. apply is_tokenizer_spec in Hs.
  destruct (@forward_training_outcome joints jf cls rand world self Hs)
    as [[e He]|(se & sd & Hsd & E)].
  - split; [left; eauto|]. intros out F. rewrite He in F. discriminate F.
  - assert (I : codebook_invariant
                  (snd (forward joints jf cls true rand world self)))
      by (rewrite E; now apply ema_update_codebook).
    split; [right; exact I | intros; exact I].
Qed.

End CodebookInvariant.

(** ** The EMA step across ranks *)

Section Ranks.

Context {P T : Type} {N : Numerics P T}.

Implicit Types (self : @Self P T).

(** X11: when this process is the only rank, packing [encodings] and [dw]
    into one vector, reducing, splitting and viewing gives both back: a
    training call in tokenizer stage that returns has made the EMA step
    with its own one-hot assignments and its own [dw]. *)
Theorem forward_single_rank_update joints jf cls rand self out self' :
  stage_pct self = "tokenizer" ->
  forward joints jf cls true rand (Some []) self = (Ok out, self') ->
  exists js encode_feat idx,
    joints = Some js /\
    encode self js jf true rand = Ok encode_feat /\
    encoding_indices out = Some idx /\
    let encodings := encodings_of (token_class_num self) idx in
    self' = ema_update self encodings (dw_of self encodings encode_feat).
Proof.
  intros Hs H. apply is_tokenizer_spec in Hs.
  apply forward_inv in H
    as (bs & ef & enc & ptf & l & p & p3 & H1 & _ & H3 & _).
  apply encoder_stage_on in H1
    as (js & x & i & -> & Hx & _ & _ & -> & Hi & ->); [|reflexivity].
  apply ema_stage_on in H3
    as (encodings & encode_feat & combined & E1 & E2 & R & -> & _);
    [|cbn; exact Hs].
  injection E1 as <-. injection E2 as <-.
  exists js, x, i. repeat split; [exact Hx | exact Hi |]. cbn zeta.
  cbn in R. injection R as <-.
  pose proof (encodings_shape (T := T) (token_class_num self) i) as He.
  pose proof (matmul_shape (token_dim self)
                (transpose (token_class_num self)
                   (encodings_of (token_class_num self) i))
                (detach x)) as Hd.
  rewrite transpose_length in Hd.
  destruct He as [_ Fe].
  destruct (payload_round_trip (conj eq_refl Fe) Hd) as [Ra Rb].
  cbn zeta in Ra, Rb.
  unfold dw_of, detach in *. rewrite Ra, Rb. reflexivity.
Qed.

(** *** An empty batch *)



(** *** Classifier stage *)

(** X13: in classifier stage a training call reads the joints for the
    batch size only as far as its outputs go: two calls that return, on
    batches of one size and the same [cls_logits], give the same joints
    and token features and leave the module as it was. *)
Theorem forward_classifier_batch_only joints1 joints2 jf1 jf2 cls train
  rand1 rand2 world1 world2 self out1 out2 self1 self2 :
  stage_pct self = "classifier" ->
  forward (Some joints1) jf1 cls train rand1 world1 self = (Ok out1, self1) ->
  forward (Some joints2) jf2 cls train rand2 world2 self = (Ok out2, self2) ->
  length joints1 = length joints2 ->
  recoverd_joints out1 = recoverd_joints out2 /\
  out_part_token_feat out1 = out_part_token_feat out2 /\
  self1 = self /\ self2 = self.
Proof.
  intros Hs H1 H2 Hlen.
  assert (Ht : is_tokenizer self = false).
  { unfold is_tokenizer. rewrite Hs. reflexivity. }
  assert (G : train && is_tokenizer self = false)
    by (rewrite Ht; apply andb_false_r).
  apply forward_inv in H1
    as (bs1 & ef1 & enc1 & ptf1 & l1 & p1 & q1 & A1 & B1 & C1 & D1 & _
        & F1 & G1).
  apply forward_inv in H2
    as (bs2 & ef2 & enc2 & ptf2 & l2 & p2 & q2 & A2 & B2 & C2 & D2 & _
        & F2 & G2).
  rewrite (ema_stage_off _ _ world1 ef1 enc1 ptf1 self G) in C1.
  rewrite (ema_stage_off _ _ world2 ef2 enc2 ptf2 self G) in C2.
  inversion C1; subst p1 self1. inversion C2; subst p2 self2.
  assert (Eptf : ptf1 = ptf2).
  { revert B1 B2. unfold lookup_stage.
    apply is_classifier_spec in Hs. rewrite Hs.
    destruct cls as [c|]; cbn; [|discriminate].
    intros X1 X2. inversion X1. inversion X2. reflexivity. }
  assert (Ebs : bs1 = bs2).
  { destruct train.
    - apply encoder_stage_on in A1
        as (js1 & _ & _ & J1 & _ & _ & -> & _); [|reflexivity].
      apply encoder_stage_on in A2
        as (js2 & _ & _ & J2 & _ & _ & -> & _); [|reflexivity].
      injection J1 as <-. injection J2 as <-. exact Hlen.
    - revert A1 A2. unfold encoder_stage. cbn [orb]. rewrite Ht.
      destruct cls as [c|]; cbn; [|discriminate].
      destruct (floordiv (length c) (token_num self)); cbn;
        [|discriminate].
      intros X1 X2. inversion X1. inversion X2. congruence. }
  subst ptf2 bs2. rewrite D1 in D2. injection D2 as <-.
  rewrite G1, G2, F1, F2. repeat split; reflexivity.
Qed.

End Ranks.

(** * More of [init_weights] *)

(** ** Dictionaries and strings *)

Lemma dict_get_set {V} (k n : string) (v : V) (d : dict V) :
  dict_get n (dict_set k v d)
  = if String.eqb k n then Some v else dict_get n d.
Proof.
  induction d as [|[k' v'] d IH]; cbn.
  - reflexivity.
  - destruct (String.eqb k' k) eqn:E; cbn.
    + apply String.eqb_eq in E. subst k'.
      destruct (String.eqb k n); reflexivity.
    + rewrite IH. destruct (String.eqb k' n) eqn:E'; [|reflexivity].
      apply String.eqb_eq in E'. subst k'.
      rewrite String.eqb_sym, E. reflexivity.
Qed.

Lemma dict_get_app {V} (n : string) (d1 d2 : dict V) :
  dict_get n (d1 ++ d2)
  = match dict_get n d1 with
    | Some v => Some v
    | None => dict_get n d2
    end.
Proof.
  induction d1 as [|[k v] d1 IH]; cbn; [reflexivity|].
  destruct (String.eqb k n); [reflexivity | exact IH].
Qed.

Lemma dict_set_keys {V} (k : string) (v : V) (d : dict V) :
  map fst (dict_set k v d)
  = if dict_mem k d then map fst d else map fst d ++ [k].
Proof.
  unfold dict_mem. induction d as [|[k' v'] d IH]; cbn; [reflexivity|].
  destruct (String.eqb k' k) eqn:E; cbn.
  - apply String.eqb_eq in E. now subst k'.
  - rewrite IH. destruct (dict_get k d); reflexivity.
Qed.

Lemma dict_get_keys {V} (k : string) (d : dict V) :
  dict_get k d = None -> ~ In k (map fst d).
Proof.
  induction d as [|[k' v'] d IH]; cbn; [tauto|].
  destruct (String.eqb k' k) eqn:E; [discriminate|].
  apply String.eqb_neq in E. intros H [F|F]; [contradiction | now apply IH].
Qed.

Lemma prefix_append (p s : string) : String.prefix p (p ++ s)%string = true.
Proof.
  induction p as [|c p IH]; cbn; [now destruct s|].
  destruct (Ascii.ascii_dec c c); [exact IH | contradiction].
Qed.

Lemma str_remove_from_skip (p q s : string) :
  str_remove_from p (String.length q) (q ++ s)%string
  = str_remove_from p 0 s.
Proof.
  induction q as [|c q IH]; cbn; [reflexivity | exact IH].
Qed.

Lemma str_remove_absent (p s : string) :
  str_contains p s = false -> str_remove p s = s.
Proof.
  unfold str_remove. induction s as [|c s IH]; [reflexivity|].
  cbn [str_contains str_remove_from]. intros H.
  apply orb_false_iff in H as [H1 H2]. rewrite H1, (IH H2). reflexivity.
Qed.

Lemma str_contains_append (p s : string) :
  str_contains p (p ++ s)%string = true.
Proof.
  pose proof (prefix_append p s) as H.
  destruct (p ++ s)%string; cbn [str_contains]; now rewrite H.
Qed.

(** A name that carries the prefix once, in front, loses it. *)
Lemma str_remove_prefix (c : ascii) (p s : string) :
  str_contains (String c p) s = false ->
  str_remove (String c p) (String c p ++ s)%string = s.
Proof.
  intros H. unfold str_remove.
  change (String c p ++ s)%string with (String c (p ++ s)%string).
  cbn [str_remove_from].
  change (String c (p ++ s)%string) with (String c p ++ s)%string.
  rewrite prefix_append.
  change (String.length (String c p) - 1)%nat
    with (String.length p - 0)%nat.
  rewrite Nat.sub_0_r, str_remove_from_skip.
  now apply str_remove_absent.
Qed.

(** ** The entries that are loaded *)

Section Selection.

Variable Value : Type.

Variables parameters_names buffers_names : list string.

Local Abbreviation wanted := (wanted parameters_names buffers_names).
Local Abbreviation select_step :=
  (select_step parameters_names buffers_names).

Lemma select_state_fold (items : dict Value) :
  select_state parameters_names buffers_names items
  = fold_left select_step items [].
Proof.
  unfold select_state. generalize (@nil (string * Value)).
  induction items as [|[name m] items IH]; intros acc; cbn;
    [reflexivity|].
  rewrite IH. reflexivity.
Qed.

Lemma wanted_in (name : string) :
  wanted name = true ->
  In name parameters_names \/ In name buffers_names.
Proof.
  unfold wanted. intros H. apply orb_true_iff in H as [H|H];
    apply existsb_exists in H as (x & Hx & E);
    apply String.eqb_eq in E; subst x; tauto.
Qed.

Lemma wanted_sym (n m : string) :
  String.eqb m n = true -> wanted m = wanted n.
Proof. intros E. apply String.eqb_eq in E. now subst. Qed.

(** X14: what [init_weights] hands to [load_state_dict] holds every name
    once, and only names of parameters or buffers of the module. *)
Theorem select_state_keys (items : dict Value) :
  let keys :=
    map fst (select_state parameters_names buffers_names items) in
  NoDup keys /\
  Forall (fun k => In k parameters_names \/ In k buffers_names) keys.
Proof.
  cbn zeta. rewrite select_state_fold.
  assert (G : forall acc : dict Value,
             NoDup (map fst acc) /\
             Forall (fun k => In k parameters_names \/ In k buffers_names)
                    (map fst acc) ->
             NoDup (map fst (fold_left select_step items acc)) /\
             Forall (fun k => In k parameters_names \/ In k buffers_names)
                    (map fst (fold_left select_step items acc))).
  { induction items as [|item items IH]; intros acc Hacc; cbn;
      [exact Hacc|].
    apply IH. unfold select_step.
    destruct (wanted (stripped (fst item))) eqn:W; [|exact Hacc].
    rewrite dict_set_keys. unfold dict_mem.
    destruct (dict_get (stripped (fst item)) acc) eqn:D; [exact Hacc|].
    destruct Hacc as [Hn Hf]. split.
    - apply NoDup_app; [exact Hn | repeat constructor; intros [] |].
      intros k Hk [<-|[]]. now apply dict_get_keys in D.
    - apply Forall_app. split; [exact Hf|].
      constructor; [now apply wanted_in | constructor]. }
  apply G. split; constructor.
Qed.

(** X15: an entry of the checkpoint is loaded under its name without
    ['keypoint_head.tokenizer.'], when that names a parameter or a buffer;
    of several entries that come to one name the last one is loaded. *)
Theorem select_state_lookup (items : dict Value) (n : string) :
  dict_get n (select_state parameters_names buffers_names items)
  = if wanted n
    then dict_get n (rev (map (fun item => (stripped (fst item), snd item))
                              items))
    else None.
Proof.
  rewrite select_state_fold.
  assert (G : forall acc : dict Value,
             dict_get n (fold_left select_step items acc)
             = match (if wanted n
                      then dict_get n
                             (rev (map (fun item =>
                                          (stripped (fst item), snd item))
                                       items))
                      else None) with
               | Some v => Some v
               | None => dict_get n acc
               end).
  { induction items as [|item items IH]; intros acc; cbn [fold_left].
    - cbn. now destruct (wanted n).
    - rewrite IH. cbn [map rev]. rewrite dict_get_app. cbn [dict_get fst].
      destruct (wanted n) eqn:W.
      + destruct (dict_get n (rev _)); [reflexivity|].
        unfold select_step.
        destruct (String.eqb (stripped (fst item)) n) eqn:E.
        * rewrite (wanted_sym _ _ E), W, dict_get_set, E. reflexivity.
        * destruct (wanted (stripped (fst item))); [|reflexivity].
          rewrite dict_get_set, E. reflexivity.
      + unfold select_step.
        destruct (wanted (stripped (fst item))) eqn:W'; [|reflexivity].
        rewrite dict_get_set.
        destruct (String.eqb (stripped (fst item)) n) eqn:E;
          [|reflexivity].
        rewrite (wanted_sym _ _ E), W in W'. discriminate. }
  rewrite G. cbn. now destruct (if wanted n then _ else _).
Qed.

(** X16: a checkpoint saved from the whole model, every name carrying
    ['keypoint_head.tokenizer.'] in front, selects what the same entries
    under their bare names select. *)
Theorem select_state_prefixed (items : dict Value) :
  Forall (fun item => str_contains tokenizer_prefix (fst item) = false)
         items ->
  select_state parameters_names buffers_names
    (map (fun item => ((tokenizer_prefix ++ fst item)%string, snd item))
         items)
  = select_state parameters_names buffers_names items.
Proof.
  intros H. rewrite !select_state_fold. generalize (@nil (string * Value)).
  induction H as [|item items Hi _ IH]; intros acc; cbn [map fold_left];
    [reflexivity|].
  rewrite IH. f_equal. unfold select_step. cbn [fst snd].
  assert (E : stripped (tokenizer_prefix ++ fst item)%string
              = stripped (fst item)).
  { unfold stripped. rewrite str_contains_append, Hi.
    now apply str_remove_prefix. }
  rewrite E. reflexivity.
Qed.

End Selection.

Section MoreWeights.

Context {P T : Type} {N : Numerics P T}.

Variable Value : Type.
Variable named_parameters : @Self P T -> list string.
Variable named_buffers : @Self P T -> list string.
Variable load_state_dict :
  @Self P T -> dict Value -> result unit * @Self P T.

(** X17: in classifier stage a checkpoint file that holds neither
    ['state_dict'] nor ['model'] makes [init_weights] raise
    [KeyError 'model'], with nothing loaded and nothing printed. *)
Theorem init_weights_missing_key (fs : Files Value) (self : @Self P T)
  (pretrained : string) (checkpoint : dict (dict Value)) :
  stage_pct self = "classifier" ->
  isfile fs pretrained = true ->
  torch_load fs pretrained = Ok checkpoint ->
  dict_get "state_dict" checkpoint = None ->
  dict_get "model" checkpoint = None ->
  init_weights named_parameters named_buffers load_state_dict
               fs self pretrained
  = (Raise (KeyError "model"), self, []).
Proof.
  intros Hs Hf Hl H1 H2. apply is_classifier_spec in Hs.
  unfold init_weights, dict_mem. rewrite Hf, Hs, Hl, H1, H2. reflexivity.
Qed.

End MoreWeights.

(** * Checkpoints *)

Section CheckpointFacts.

Variables Model Optimizer Value : Type.
Variable model_state_dict : Model -> Value.
Variable optimizer_state_dict : Optimizer -> Value.
Variable model_load_state_dict : Model -> Value -> result unit * Model.
Variable optimizer_load_state_dict :
  Optimizer -> Value -> result unit * Optimizer.
Variable Disk : Type.
Variable torch_save : dict Value -> string -> Disk -> result unit * Disk.
Variable torch_load : string -> Disk -> result (dict Value).
Variable format : Value -> string.

Local Abbreviation save_checkpoint :=
  (save_checkpoint model_state_dict optimizer_state_dict torch_save).
Local Abbreviation load_checkpoint :=
  (load_checkpoint model_load_state_dict optimizer_load_state_dict
                   torch_load format).
Local Abbreviation loaded_message := (loaded_message format).

(** X18: what [save_checkpoint] wrote, [load_checkpoint] reads back: if a
    file that was saved loads as the dictionary that was saved, then
    loading the checkpoint into a model and an optimizer that accept the
    saved states returns the epoch and the loss that were saved, and
    prints them. *)
Theorem checkpoint_round_trip (model model2 model2' : Model)
  (optimizer optimizer2 optimizer2' : Optimizer) (epoch loss : Value)
  (filepath : string) (disk disk' : Disk) (out : list string) :
  (forall c p d d', torch_save c p d = (Ok tt, d') -> torch_load p d' = Ok c) ->
  save_checkpoint model optimizer epoch loss filepath disk
  = (Ok tt, disk', out) ->
  model_load_state_dict model2 (model_state_dict model) = (Ok tt, model2') ->
  optimizer_load_state_dict optimizer2 (optimizer_state_dict optimizer)
  = (Ok tt, optimizer2') ->
  load_checkpoint model2 optimizer2 filepath disk'
  = (Ok (epoch, loss), model2', optimizer2',
     [loaded_message filepath epoch loss]).
Proof.
  intros Hrt Hs Hm Ho. unfold save_checkpoint in Hs.
  destruct (torch_save _ filepath disk) as [[[]|e] d1] eqn:S;
    [|discriminate].
  injection Hs as <- _. apply Hrt in S.
  unfold load_checkpoint. rewrite S. cbn [dict_get String.eqb Ascii.eqb
    Bool.eqb]. cbn. rewrite Hm, Ho. reflexivity.
Qed.

(** X19: [load_checkpoint] is not atomic: once the model has taken its
    state, a failure further on (a missing key, an optimizer state that
    is refused) leaves the model loaded, and nothing is printed. *)
Theorem load_checkpoint_keeps_model (model model' : Model)
  (optimizer : Optimizer) (filepath : string) (disk : Disk)
  (checkpoint : dict Value) (model_state : Value) (e : exn) :
  torch_load filepath disk = Ok checkpoint ->
  dict_get "model_state_dict" checkpoint = Some model_state ->
  model_load_state_dict model model_state = (Ok tt, model') ->
  fst (fst (fst (load_checkpoint model optimizer filepath disk)))
  = Raise e ->
  snd (fst (fst (load_checkpoint model optimizer filepath disk))) = model'
  /\ snd (load_checkpoint model optimizer filepath disk) = [].
Proof.
  intros Hl Hk Hm. unfold load_checkpoint. rewrite Hl, Hk, Hm.
  destruct (dict_get "optimizer_state_dict" checkpoint) as [os|];
    [|split; reflexivity].
  destruct (optimizer_load_state_dict optimizer os) as [[[]|e'] o'];
    [|split; reflexivity].
  destruct (dict_get "epoch" checkpoint); [|split; reflexivity].
  destruct (dict_get "loss" checkpoint); [|split; reflexivity].
  discriminate.
Qed.

End CheckpointFacts.

(** * Truncated normal initialisation *)

Module TruncNormalFacts.

Import IEEE TruncNormal.

(** ** The order on floats *)

Lemma compare_cont_antisym (p q : positive) :
  Pos.compare_cont Eq q p = CompOpp (Pos.compare_cont Eq p q).
Proof. apply (Pos.compare_antisym p q). Qed.

Lemma SFcompare_antisym (x y : spec_float) :
  SFcompare y x = option_map CompOpp (SFcompare x y).
Proof.
  destruct x as [sx|sx| |sx mx ex], y as [sy|sy| |sy my ey]; cbn;
    try reflexivity;
    try (destruct sx; reflexivity);
    try (destruct sy; reflexivity);
    try (destruct sx, sy; reflexivity).
  destruct sx, sy; try reflexivity; f_equal;
    rewrite (Z.compare_antisym ex ey);
    destruct (ex ?= ey)%Z; cbn; try reflexivity;
    rewrite (compare_cont_antisym mx my);
    destruct (Pos.compare_cont Eq mx my); reflexivity.
Qed.

Lemma SFcompare_some (x y : spec_float) :
  is_nan x = false -> is_nan y = false ->
  exists c, SFcompare x y = Some c.
Proof.
  destruct x, y; cbn; intros; try discriminate; eauto.
Qed.

Lemma SFltb_false_leb (x y : spec_float) :
  is_nan x = false -> is_nan y = false ->
  SFltb x y = false -> SFleb y x = true.
Proof.
  intros Hx Hy. unfold SFltb, SFleb. rewrite (SFcompare_antisym x y).
  destruct (SFcompare_some x y Hx Hy) as [c ->]. cbn.
  destruct c; cbn; congruence.
Qed.

Lemma SFltb_leb (x y : spec_float) : SFltb x y = true -> SFleb x y = true.
Proof.
  unfold SFltb, SFleb. destruct (SFcompare x y) as [[]|]; congruence.
Qed.

Lemma SFleb_not_nan (x y : spec_float) :
  SFleb x y = true -> is_nan x = false /\ is_nan y = false.
Proof.
  destruct x, y; cbn; try discriminate; auto.
Qed.

Lemma SFleb_refl (x : spec_float) : is_nan x = false -> SFleb x x = true.
Proof.
  intros H. apply SFltb_false_leb; try exact H.
  unfold SFltb. pose proof (SFcompare_antisym x x) as E.
  destruct (SFcompare x x) as [[]|]; cbn in E; congruence.
Qed.

(** What [clamp_] leaves of one element. *)
Lemma clamp_within (lo hi x : binary32) :
  SFleb lo hi = true ->
  is_nan (clamp lo hi x) = true \/ within lo hi (clamp lo hi x) = true.
Proof.
  intros H. destruct (SFleb_not_nan _ _ H) as [Hlo Hhi].
  unfold clamp, tensor_max, tensor_min, within. rewrite Hlo, Hhi.
  destruct (is_nan x) eqn:Hx; cbn [orb is_nan]; [now left|].
  rewrite !orb_false_r.
  destruct (SFltb x lo) eqn:L1.
  - rewrite Hlo. right.
    destruct (SFltb hi lo) eqn:L2.
    + apply SFltb_leb in L2. rewrite H, (SFleb_refl hi Hhi). reflexivity.
    + rewrite (SFleb_refl lo Hlo), H. reflexivity.
  - rewrite Hx. right.
    destruct (SFltb hi x) eqn:L2.
    + rewrite H, (SFleb_refl hi Hhi). reflexivity.
    + rewrite (SFltb_false_leb x lo Hx Hlo L1),
        (SFltb_false_leb hi x Hhi Hx L2). reflexivity.
Qed.

(** Subtracting or adding a zero moves no number across another. *)
Lemma SFeqb_zero (x : spec_float) :
  SFeqb x (S754_zero false) = true -> exists s, x = S754_zero s.
Proof.
  destruct x as [s|s| |s m e]; cbn; try discriminate; eauto.
  - destruct s; discriminate.
  - destruct s; discriminate.
Qed.

Lemma two_zero (s : bool) :
  py_mul (py_float 2) (S754_zero s) = S754_zero s.
Proof. destruct s; reflexivity. Qed.

Lemma SFltb_sub_zero (x v : binary64) (s : bool) :
  SFltb x (py_sub v (S754_zero s)) = SFltb x v.
Proof.
  destruct v as [sv|sv| |sv mv ev]; try reflexivity.
  destruct x, sv, s; reflexivity.
Qed.

Lemma SFltb_add_zero (x v : binary64) (s : bool) :
  SFltb (py_add v (S754_zero s)) x = SFltb v x.
Proof.
  destruct v as [sv|sv| |sv mv ev]; try reflexivity.
  destruct x, sv, s; reflexivity.
Qed.

Section InitFacts.

Variable erf : binary64 -> binary64.
Variable erfinv : binary32 -> binary32.
Variable uniform_ :
  binary64 -> binary64 -> list binary32 -> result (list binary32).

Lemma trunc_normal_clamped (tensor : list binary32) (mean std a b : binary64)
  (filled : list binary32) :
  fst (fst (_trunc_normal_ erf erfinv uniform_ tensor mean std a b))
  = Ok filled ->
  exists drawn,
    filled = map (clamp (to_binary32 a) (to_binary32 b)) drawn /\
    snd (fst (_trunc_normal_ erf erfinv uniform_ tensor mean std a b))
    = filled.
Proof.
  unfold _trunc_normal_.
  destruct (py_truediv (py_sub a mean) std); [|discriminate].
  destruct (py_truediv (py_sub b mean) std); [|discriminate].
  destruct (uniform_ _ _ tensor) as [t|]; [|discriminate].
  cbn. intros H. injection H as <-. eauto.
Qed.

(** X20: whatever was drawn, every element [_trunc_normal_] leaves is a NaN
    or lies between the bounds as the tensor's type holds them, when
    these are in order; the filled tensor is what is returned. *)
Theorem trunc_normal_within (tensor : list binary32)
  (mean std a b : binary64) (filled : list binary32) :
  SFleb (to_binary32 a) (to_binary32 b) = true ->
  fst (fst (_trunc_normal_ erf erfinv uniform_ tensor mean std a b))
  = Ok filled ->
  snd (fst (_trunc_normal_ erf erfinv uniform_ tensor mean std a b))
  = filled /\
  Forall (fun x => is_nan x = true
                   \/ within (to_binary32 a) (to_binary32 b) x = true)
         filled.
Proof.
  intros Hab H. apply trunc_normal_clamped in H as (drawn & -> & E).
  split; [exact E|]. apply Forall_forall. intros x Hx.
  apply in_map_iff in Hx as (y & <- & _). now apply clamp_within.
Qed.

(** X21: with a standard deviation of zero (of either sign)
    [_trunc_normal_] raises [ZeroDivisionError] at line 31 and leaves the
    tensor as it was; the warning of line 24 has been issued by then
    exactly when [mean] lies outside the bounds. *)
Theorem trunc_normal_zero_std (tensor : list binary32)
  (mean std a b : binary64) :
  SFeqb std (S754_zero false) = true ->
  _trunc_normal_ erf erfinv uniform_ tensor mean std a b
  = (Raise ZeroDivisionError, tensor,
     if SFltb mean a || SFltb b mean then [warning] else []).
Proof.
  intros Hz. unfold _trunc_normal_, py_truediv. rewrite Hz.
  apply SFeqb_zero in Hz as [s ->].
  rewrite two_zero, SFltb_sub_zero, SFltb_add_zero. reflexivity.
Qed.

(** X22: the invisible token [__init__] makes: no warning is issued, and
    if [uniform_] returns, every element is a NaN or lies between
    [-0.02] and [0.02] as binary32 holds them. *)
Theorem init_invisible_token_within (hidden : nat) :
  let r := init_invisible_token erf erfinv uniform_ hidden in
  snd r = [] /\
  forall token,
    fst (fst r) = Ok token ->
    Forall (fun x => is_nan x = true
                     \/ within (SFopp (to_binary32 lit_0_02))
                               (to_binary32 lit_0_02) x = true)
           token.
Proof.
  cbn zeta. unfold init_invisible_token, trunc_normal_. split.
  - unfold _trunc_normal_.
    destruct (py_truediv _ lit_0_02); [|reflexivity].
    destruct (py_truediv _ lit_0_02); [|reflexivity].
    destruct (uniform_ _ _ _); reflexivity.
  - intros token H. apply trunc_normal_clamped in H as (drawn & -> & _).
    apply Forall_forall. intros x Hx.
    apply in_map_iff in Hx as (y & <- & _).
    change (to_binary32 (SFopp lit_0_02))
      with (SFopp (to_binary32 lit_0_02)).
    now apply clamp_within.
Qed.

End InitFacts.

End TruncNormalFacts.

(** * The [view] of line 243 *)

Lemma chunks_concat {X} (n k : nat) (l : list X) :
  length l = (n * k)%nat ->
  concat (map (fun b => firstn k (skipn (b * k) l)) (seq 0 n)) = l.
Proof.
  revert l. induction n as [|n IH]; intros l Hl.
  - destruct l; [reflexivity | discriminate].
  - cbn [seq map concat]. rewrite <- seq_shift, map_map.
    transitivity (firstn k l ++ skipn k l); [|apply firstn_skipn].
    cbn [Nat.mul skipn]. f_equal.
    transitivity
      (concat (map (fun b => firstn k (skipn (b * k) (skipn k l)))
                   (seq 0 n))).
    + f_equal. apply map_ext. intros b.
      rewrite skipn_skipn. f_equal. f_equal. cbn. lia.
    + apply IH. rewrite length_skipn. lia.
Qed.

Section View.

Context {T : Type}.

(** X23: a [view(bs, -1, d)] that succeeds has a batch size other than
    zero and shares the rows out evenly, in order: there are [bs] blocks
    of one length, and flattening them gives the matrix back. *)
Theorem view_batches_flatten (bs : nat) (m : @mat T) (t : @ten3 T) :
  view_batches bs m = Ok t ->
  bs <> 0%nat /\
  length t = bs /\
  Forall (fun block => length block = (length m / bs)%nat) t /\
  flatten01 t = m.
Proof.
  unfold view_batches.
  destruct (bs =? 0)%nat eqn:Z; [discriminate|].
  apply Nat.eqb_neq in Z.
  destruct (length m mod bs =? 0)%nat eqn:D; [|discriminate].
  apply Nat.eqb_eq in D. intros H. injection H as <-.
  assert (L : length m = (bs * (length m / bs))%nat).
  { pose proof (Nat.div_mod_eq (length m) bs). lia. }
  split; [exact Z|]. split; [now rewrite length_map, length_seq|]. split.
  - apply Forall_forall. intros block Hb.
    apply in_map_iff in Hb as (b & <- & Hb). apply in_seq in Hb.
    rewrite length_firstn, length_skipn. nia.
  - unfold flatten01. now apply chunks_concat.
Qed.

End View.

Section Batches.

Context {P T : Type} {N : Numerics P T}.

(** X24: a call that runs the encoder and returns was given at least one
    pose, and returns one block of token features for every pose. *)
Theorem forward_block_per_pose (joints : @ten3 T) jf cls train rand world
  (self : @Self P T) out self' :
  train = true \/ stage_pct self = "tokenizer" ->
  forward (Some joints) jf cls train rand world self = (Ok out, self') ->
  joints <> [] /\ length (out_part_token_feat out) = length joints.
Proof.
  intros G H.
  assert (G' : train || is_tokenizer self = true).
  { apply orb_true_iff. rewrite is_tokenizer_spec. exact G. }
  apply forward_inv in H
    as (bs & ef & enc & ptf & l & p & p3 & H1 & _ & _ & V & _ & Hp & _).
  apply encoder_stage_on in H1 as (js & _ & _ & J & _ & _ & -> & _);
    [|exact G'].
  injection J as <-. rewrite Hp.
  apply view_batches_flatten in V as (Z & L & _).
  split; [|exact L]. intros ->. apply Z. reflexivity.
Qed.

End Batches.

(** * The further theorems at small instances *)

Module MoreWitnesses.

Import IEEE Net32 Small TruncNormal TruncNormalFacts.

Lemma pair_of_fst (A B : Type) (p : A * B) (a : A) :
  fst p = a -> p = (a, snd p).
Proof. destruct p as [a0 b0]. cbn. congruence. Qed.

(** In every tactic below [r] is the outcome of a call, computed without
    the module it leaves. *)
Ltac run call :=
  let r := eval vm_compute in (fst call) in
  match r with
  | Ok ?o =>
      assert (F : fst call = Ok o) by (vm_compute; reflexivity);
      apply pair_of_fst in F; exists o
  end.

Lemma forward_joints_of_features_witness :
  exists out,
    forward (Some joints) None None true rand (Some []) (tiny "tokenizer")
    = (Ok out,
       snd (forward (Some joints) None None true rand (Some [])
                    (tiny "tokenizer"))) /\
    recoverd_joints out
    = decode (tiny "tokenizer") (out_part_token_feat out).
Proof.
  run (forward (Some joints) None None true rand (Some [])
               (tiny "tokenizer")).
  split; [exact F|]. apply forward_joints_of_features in F. exact F.
Defined.

Lemma forward_unknown_stage_witness :
  stage_pct (tiny "regressor") <> "tokenizer" /\
  stage_pct (tiny "regressor") <> "classifier" /\
  forward (Some joints) None (Some cls_logits) false rand (Some [])
          (tiny "regressor")
  = (Raise (UnboundLocalError "encodings"), tiny "regressor").
Proof.
  split; [discriminate|]. split; [discriminate|].
  exact (@forward_unknown_stage _ _ _ (Some joints) None (Some cls_logits)
           rand (Some []) (tiny "regressor")
           ltac:(discriminate) ltac:(discriminate)).
Defined.

Lemma forward_without_process_group_witness :
  stage_pct (tiny "tokenizer") = "tokenizer" /\
  (exists e,
     fst (forward (Some joints) None None true rand None
                  (tiny "tokenizer")) = Raise e) /\
  snd (forward (Some joints) None None true rand None (tiny "tokenizer"))
  = tiny "tokenizer".
Proof.
  split; [reflexivity|].
  exact (@forward_without_process_group _ _ _ (Some joints) None None rand
           (tiny "tokenizer") eq_refl).
Defined.

Lemma forward_draws_only_in_training_witness :
  ~ (true = true /\ stage_pct (tiny "classifier") = "tokenizer") /\
  forward (Some joints) None (Some cls_logits) true rand None
          (tiny "classifier")
  = forward (Some joints) None (Some cls_logits) true [] (Some [[]])
            (tiny "classifier").
Proof.
  assert (G : ~ (true = true /\ stage_pct (tiny "classifier") = "tokenizer"))
    by (intros [_ H]; discriminate H).
  split; [exact G|].
  exact (@forward_draws_only_in_training _ _ _ (Some joints) None
           (Some cls_logits) true rand [] None (Some [[]])
           (tiny "classifier") G).
Defined.

Lemma forward_needs_joints_witness :
  (true = true \/ stage_pct (tiny "classifier") = "tokenizer") /\
  forward None None (Some cls_logits) true rand (Some [])
          (tiny "classifier")
  = (Raise AttributeError, tiny "classifier").
Proof.
  split; [left; reflexivity|].
  exact (@forward_needs_joints _ _ _ None (Some cls_logits) true rand
           (Some []) (tiny "classifier") (or_introl eq_refl)).
Defined.

Lemma forward_classifier_eval_ignores_joints_witness :
  stage_pct (tiny "classifier") = "classifier" /\
  forward (Some joints) None (Some cls_logits) false rand None
          (tiny "classifier")
  = forward None (Some joints) (Some cls_logits) false [] (Some [])
            (tiny "classifier").
Proof.
  split; [reflexivity|].
  exact (@forward_classifier_eval_ignores_joints _ _ _ (Some joints) None
           None (Some joints) (Some cls_logits) rand [] None (Some [])
           (tiny "classifier") eq_refl).
Defined.

Lemma forward_tokenizer_ignores_logits_witness :
  stage_pct (tiny "tokenizer") = "tokenizer" /\
  forward (Some joints) None None true rand (Some []) (tiny "tokenizer")
  = forward (Some joints) None (Some cls_logits) true rand (Some [])
            (tiny "tokenizer").
Proof.
  split; [reflexivity|].
  exact (@forward_tokenizer_ignores_logits _ _ _ (Some joints) None None
           (Some cls_logits) true rand (Some []) (tiny "tokenizer")
           eq_refl).
Defined.

Lemma forward_indices_in_codebook_witness :
  exists out,
    forward (Some joints) None None true rand (Some []) (tiny "tokenizer")
    = (Ok out,
       snd (forward (Some joints) None None true rand (Some [])
                    (tiny "tokenizer"))) /\
    encoding_indices out = Some [0%nat] /\
    Forall (fun i => (i < token_class_num (tiny "tokenizer"))%nat
                     /\ (i < length (codebook (tiny "tokenizer")))%nat)
           [0%nat].
Proof.
  run (forward (Some joints) None None true rand (Some [])
               (tiny "tokenizer")).
  split; [exact F|]. split; [reflexivity|].
  eapply forward_indices_in_codebook; [exact F | reflexivity].
Defined.

Lemma tiny_well_shaped (stage : string) : well_shaped (tiny stage).
Proof.
  repeat split; repeat constructor.
Qed.

Lemma forward_keeps_shapes_witness :
  well_shaped (tiny "tokenizer") /\
  well_shaped
    (snd (forward (Some joints) None None true rand (Some [])
                  (tiny "tokenizer"))).
Proof.
  split; [apply tiny_well_shaped|].
  apply forward_keeps_shapes. apply tiny_well_shaped.
Defined.

(** A call that returns, and the call on no poses, which raises after the
    step: in both every class has its rows. *)
Lemma forward_codebook_invariant_witness :
  stage_pct (tiny "tokenizer") = "tokenizer" /\
  well_shaped (tiny "tokenizer") /\
  (exists out,
     fst (forward (Some joints) None None true rand (Some [])
                  (tiny "tokenizer")) = Ok out) /\
  codebook_invariant
    (snd (forward (Some joints) None None true rand (Some [])
                  (tiny "tokenizer"))) /\
  ema_w (snd (forward (Some joints) None None true rand (Some [])
                      (tiny "tokenizer")))
  = [[S754_finite false 8472492 (-23)];
     [S754_finite true 16609444 (-23)]] /\
  ema_cluster_size (snd (forward (Some joints) None None true rand
                                 (Some []) (tiny "tokenizer")))
  = [S754_finite false 10726701 (-30); S754_finite false 10973170 (-40)] /\
  codebook (snd (forward (Some joints) None None true rand (Some [])
                         (tiny "tokenizer")))
  = [[SFdiv 24 128 (S754_finite false 8472492 (-23))
                   (S754_finite false 10726701 (-30))];
     [SFdiv 24 128 (S754_finite true 16609444 (-23))
                   (S754_finite false 10973170 (-40))]] /\
  fst (forward (Some []) None None true rand (Some []) (tiny "tokenizer"))
  = Raise (RuntimeError "cannot reshape tensor") /\
  codebook_invariant
    (snd (forward (Some []) None None true rand (Some [])
                  (tiny "tokenizer"))) /\
  ema_w (snd (forward (Some []) None None true rand (Some [])
                      (tiny "tokenizer")))
  = [[S754_finite false 16609444 (-24)];
     [S754_finite true 16609444 (-23)]] /\
  ema_cluster_size (snd (forward (Some []) None None true rand (Some [])
                                 (tiny "tokenizer")))
  = [S754_zero false; S754_zero false] /\
  codebook (snd (forward (Some []) None None true rand (Some [])
                         (tiny "tokenizer")))
  = [[S754_infinity false]; [S754_infinity true]].
Proof.
  pose proof (@forward_codebook_invariant _ _ _ (Some joints) None None
                rand (Some []) (tiny "tokenizer") eq_refl
                (tiny_well_shaped "tokenizer")) as [_ Returned].
  pose proof (@forward_codebook_invariant _ _ _ (Some []) None None
                rand (Some []) (tiny "tokenizer") eq_refl
                (tiny_well_shaped "tokenizer")) as [Raised _].
  split; [reflexivity|]. split; [apply tiny_well_shaped|].
  let r := eval vm_compute in
    (fst (forward (Some joints) None None true rand (Some [])
                  (tiny "tokenizer"))) in
  match r with
  | Ok ?o =>
      assert (F : fst (forward (Some joints) None None true rand (Some [])
                               (tiny "tokenizer")) = Ok o)
        by (vm_compute; reflexivity)
  end.
  split; [eexists; exact F|]. split; [exact (Returned _ F)|].
  split; [vm_compute; reflexivity|]. split; [vm_compute; reflexivity|].
  split; [vm_compute; reflexivity|]. split; [vm_compute; reflexivity|].
  split.
  - destruct Raised as [[e He]|I]; [exfalso | exact I].
    apply (f_equal (fun p => codebook (snd p))) in He.
    vm_compute in He. discriminate He.
  - split; [vm_compute; reflexivity|].
    split; vm_compute; reflexivity.
Defined.

Lemma forward_single_rank_update_witness :
  stage_pct (tiny "tokenizer") = "tokenizer" /\
  exists out,
    forward (Some joints) None None true rand (Some []) (tiny "tokenizer")
    = (Ok out,
       snd (forward (Some joints) None None true rand (Some [])
                    (tiny "tokenizer"))) /\
    exists js encode_feat idx,
      Some joints = Some js /\
      encode (tiny "tokenizer") js None true rand = Ok encode_feat /\
      encoding_indices out = Some idx /\
      snd (forward (Some joints) None None true rand (Some [])
                   (tiny "tokenizer"))
      = ema_update (tiny "tokenizer")
          (encodings_of (token_class_num (tiny "tokenizer")) idx)
          (dw_of (tiny "tokenizer")
             (encodings_of (token_class_num (tiny "tokenizer")) idx)
             encode_feat).
Proof.
  split; [reflexivity|].
  run (forward (Some joints) None None true rand (Some [])
               (tiny "tokenizer")).
  split; [exact F|].
  apply forward_single_rank_update in F; [exact F | reflexivity].
Defined.


Lemma forward_classifier_batch_only_witness :
  stage_pct (tiny "classifier") = "classifier" /\
  length joints = length joints_hidden_a /\
  exists out1 out2,
    forward (Some joints) None (Some cls_logits) true rand None
            (tiny "classifier")
    = (Ok out1,
       snd (forward (Some joints) None (Some cls_logits) true rand None
                    (tiny "classifier"))) /\
    forward (Some joints_hidden_a) None (Some cls_logits) true rand
            (Some []) (tiny "classifier")
    = (Ok out2,
       snd (forward (Some joints_hidden_a) None (Some cls_logits) true
                    rand (Some []) (tiny "classifier"))) /\
    recoverd_joints out1 = recoverd_joints out2 /\
    out_part_token_feat out1 = out_part_token_feat out2 /\
    snd (forward (Some joints) None (Some cls_logits) true rand None
                 (tiny "classifier")) = tiny "classifier" /\
    snd (forward (Some joints_hidden_a) None (Some cls_logits) true rand
                 (Some []) (tiny "classifier")) = tiny "classifier".
Proof.
  split; [reflexivity|]. split; [reflexivity|].
  run (forward (Some joints) None (Some cls_logits) true rand None
               (tiny "classifier")).
  rename F into F1.
  run (forward (Some joints_hidden_a) None (Some cls_logits) true rand
               (Some []) (tiny "classifier")).
  split; [exact F1|]. split; [exact F|].
  eapply forward_classifier_batch_only; [| exact F1 | exact F |];
    reflexivity.
Defined.

(** A checkpoint of the whole model with one buffer of the tokenizer. *)
Lemma select_state_prefixed_witness :
  Forall (fun item => str_contains tokenizer_prefix (fst item) = false)
         [("codebook", 7%nat)] /\
  select_state ["start_embed.weight"] ["codebook"]
    [("keypoint_head.tokenizer.codebook", 7%nat)]
  = select_state ["start_embed.weight"] ["codebook"] [("codebook", 7%nat)].
Proof.
  assert (H : Forall (fun item : string * nat =>
                        str_contains tokenizer_prefix (fst item) = false)
                     [("codebook", 7%nat)])
    by (repeat constructor).
  split; [exact H|].
  exact (@select_state_prefixed nat ["start_embed.weight"] ["codebook"]
           [("codebook", 7%nat)] H).
Defined.

Lemma init_weights_missing_key_witness :
  init_weights Disk.no_names Disk.no_names Disk.load_nothing
               other_file (tiny "classifier") "tokenizer.pth"
  = (Raise (KeyError "model"), tiny "classifier", []).
Proof.
  apply init_weights_missing_key with (checkpoint := [("epoch", [])]);
    reflexivity.
Defined.

Lemma load_after_save (c : dict nat) (p : string) (d d' : dict (dict nat)) :
  save_file c p d = (Ok tt, d') -> load_file p d' = Ok c.
Proof.
  unfold save_file, load_file. intros H. injection H as <-.
  rewrite dict_get_set, String.eqb_refl. reflexivity.
Qed.

Lemma checkpoint_round_trip_witness :
  load_checkpoint take_state take_state load_file (fun _ => "3") 0%nat 0%nat
                  "last.pth" [("last.pth",
                               [("epoch", 3%nat); ("model_state_dict", 1%nat);
                                ("optimizer_state_dict", 2%nat);
                                ("loss", 4%nat)])]
  = (Ok (3%nat, 4%nat), 1%nat, 2%nat,
     ["Checkpoint loaded from last.pth. Resuming training from epoch 3 with loss 3"]).
Proof.
  exact (@checkpoint_round_trip nat nat nat (fun m => m) (fun o => o)
           take_state take_state (dict (dict nat)) save_file load_file
           (fun _ => "3") 1%nat 0%nat 1%nat 2%nat 0%nat 2%nat 3%nat 4%nat
           "last.pth" [] _ _ load_after_save eq_refl eq_refl eq_refl).
Defined.

Lemma load_checkpoint_keeps_model_witness :
  snd (fst (fst (load_checkpoint take_state refuse_state load_file
                   (fun _ => "3") 0%nat 0%nat "last.pth"
                   [("last.pth",
                     [("epoch", 3%nat); ("model_state_dict", 1%nat);
                      ("optimizer_state_dict", 2%nat);
                      ("loss", 4%nat)])]))) = 1%nat /\
  snd (load_checkpoint take_state refuse_state load_file
         (fun _ => "3") 0%nat 0%nat "last.pth"
         [("last.pth",
           [("epoch", 3%nat); ("model_state_dict", 1%nat);
            ("optimizer_state_dict", 2%nat); ("loss", 4%nat)])]) = [].
Proof.
  apply load_checkpoint_keeps_model
    with (checkpoint := [("epoch", 3%nat); ("model_state_dict", 1%nat);
                         ("optimizer_state_dict", 2%nat); ("loss", 4%nat)])
         (model_state := 1%nat)
         (e := RuntimeError "loaded state dict contains a parameter group that doesn't match");
    reflexivity.
Defined.

Lemma trunc_normal_within_witness :
  SFleb (to_binary32 (py_float (-2)))
        (to_binary32 (py_float 2)) = true /\
  fst (fst (_trunc_normal_ (fun x => x) (fun x => x) draws
              [z32 0; z32 0; z32 0]
              (py_float 0) (py_float 1)
              (py_float (-2)) (py_float 2)))
  = Ok [z32 2; z32 (-2); z32 0] /\
  Forall (fun x => is_nan x = true
                   \/ within
                        (to_binary32 (py_float (-2)))
                        (to_binary32 (py_float 2)) x = true)
         [z32 2; z32 (-2); z32 0].
Proof.
  split; [vm_compute; reflexivity|].
  assert (F : fst (fst (_trunc_normal_ (fun x => x) (fun x => x)
                          draws [z32 0; z32 0; z32 0]
                          (py_float 0) (py_float 1)
                          (py_float (-2))
                          (py_float 2)))
              = Ok [z32 2; z32 (-2); z32 0])
    by (vm_compute; reflexivity).
  split; [exact F|].
  refine (proj2 (@trunc_normal_within (fun x => x) (fun x => x)
                   draws [z32 0; z32 0; z32 0]
                   (py_float 0) (py_float 1)
                   (py_float (-2)) (py_float 2)
                   [z32 2; z32 (-2); z32 0] _ F)).
  vm_compute. reflexivity.
Defined.

(** A standard deviation of [-0.0], and a mean above the bounds. *)
Lemma trunc_normal_zero_std_witness :
  SFeqb (S754_zero true) (S754_zero false) = true /\
  _trunc_normal_ (fun x => x) (fun x => x) draws
    [z32 1] (py_float 3) (S754_zero true)
    (py_float (-2)) (py_float 2)
  = (Raise ZeroDivisionError, [z32 1], [warning]).
Proof.
  split; [reflexivity|].
  exact (@trunc_normal_zero_std (fun x => x) (fun x => x) draws
           [z32 1] (py_float 3) (S754_zero true)
           (py_float (-2)) (py_float 2) eq_refl).
Defined.

Lemma init_invisible_token_within_witness :
  snd (init_invisible_token (fun x => x) (fun x => x) draws 3)
  = [] /\
  fst (fst (init_invisible_token (fun x => x) (fun x => x)
              draws 3))
  = Ok [to_binary32 lit_0_02;
        SFopp (to_binary32 lit_0_02); z32 0] /\
  Forall (fun x => is_nan x = true
                   \/ within
                        (SFopp (to_binary32 lit_0_02))
                        (to_binary32 lit_0_02) x = true)
         [to_binary32 lit_0_02;
          SFopp (to_binary32 lit_0_02); z32 0].
Proof.
  pose proof (@init_invisible_token_within (fun x => x)
                (fun x => x) draws 3) as [W H].
  split; [exact W|].
  assert (F : fst (fst (init_invisible_token (fun x => x)
                          (fun x => x) draws 3))
              = Ok [to_binary32 lit_0_02;
                    SFopp (to_binary32 lit_0_02); z32 0])
    by (vm_compute; reflexivity).
  split; [exact F | exact (H _ F)].
Defined.

Lemma view_batches_flatten_witness :
  view_batches 2 [[z32 1]; [z32 2]; [z32 3]; [z32 4]]
  = Ok [[[z32 1]; [z32 2]]; [[z32 3]; [z32 4]]] /\
  2%nat <> 0%nat /\
  length [[[z32 1]; [z32 2]]; [[z32 3]; [z32 4]]] = 2%nat /\
  Forall (fun block =>
            length block
            = (length [[z32 1]; [z32 2]; [z32 3]; [z32 4]] / 2)%nat)
         [[[z32 1]; [z32 2]]; [[z32 3]; [z32 4]]] /\
  flatten01 [[[z32 1]; [z32 2]]; [[z32 3]; [z32 4]]]
  = [[z32 1]; [z32 2]; [z32 3]; [z32 4]].
Proof.
  assert (V : view_batches 2 [[z32 1]; [z32 2]; [z32 3]; [z32 4]]
              = Ok [[[z32 1]; [z32 2]]; [[z32 3]; [z32 4]]])
    by reflexivity.
  split; [exact V|]. apply view_batches_flatten in V. exact V.
Defined.

Lemma forward_block_per_pose_witness :
  (true = true \/ stage_pct (tiny "classifier") = "tokenizer") /\
  exists out,
    forward (Some joints) None (Some cls_logits) true rand None
            (tiny "classifier")
    = (Ok out,
       snd (forward (Some joints) None (Some cls_logits) true rand None
                    (tiny "classifier"))) /\
    joints <> [] /\ length (out_part_token_feat out) = length joints.
Proof.
  split; [left; reflexivity|].
  run (forward (Some joints) None (Some cls_logits) true rand None
               (tiny "classifier")).
  split; [exact F|].
  apply forward_block_per_pose in F; [exact F | left; reflexivity].
Defined.

End MoreWitnesses.
